(** * Feishu / Dify relay: a shallow embedding of [gaode/app.py]

    The development follows the Python module function by function:
    [get_feishu_access_token], [call_dify_api], [send_feishu_message],
    [process_ai_response] and [feishu_webhook].

    Modelling conventions.
    - A Python [str] is represented by its UTF-8 encoding, a [string] of
      bytes.  Concatenation, [startswith] with an ASCII prefix and the
      substring test commute with the encoding; [len] counts code points,
      see [py_len].
    - Values produced by [json.loads] are the inductive [pyval]; a Python
      [dict] with string keys is the list of its items in insertion order,
      without duplicate keys.  [conversation_store], which is only read and
      written by key, is a [gmap].
    - Every network exchange is scripted by a [world]: the code decides
      what it sends and how it reacts, the world decides what comes back.
    - Effects are recorded, in program order, in the [trace] of the
      [state]; [logger.error] and [logger.warning] records are part of the
      trace, the purely informational [logger.info] records are not.
    - [raise] and [try ... except Exception] are the error monad [M]; only
      subclasses of [Exception] are modelled (no task cancellation). *)

From Stdlib Require Import ZArith String Ascii List Lia Bool.
From Stdlib Require Import SpecFloat.
From stdpp Require Import gmap strings list fin_maps.

Set Warnings "-register-all".
Open Scope string_scope.
Open Scope list_scope.

(** ** Python values *)

Inductive pyval :=
| VNone
| VBool (b : bool)
| VInt (z : Z)
| VFloat (f : spec_float)
| VStr (s : string)
| VList (l : list pyval)
| VDict (d : list (string * pyval)).

(** [bool(v)], the truth value used by [if v:] and [a or b]. *)
Definition truthy (v : pyval) : bool :=
  match v with
  | VNone => false
  | VBool b => b
  | VInt z => negb (z =? 0)%Z
  | VFloat (S754_zero _) => false
  | VFloat _ => true
  | VStr s => negb (String.eqb s "")
  | VList l => match l with [] => false | _ => true end
  | VDict d => match d with [] => false | _ => true end
  end.

(** [v == s] for a string literal [s]. *)
Definition py_eq_str (v : pyval) (s : string) : bool :=
  match v with
  | VStr t => String.eqb t s
  | _ => false
  end.

(** [type(v).__name__] *)
Definition type_name (v : pyval) : string :=
  match v with
  | VNone => "NoneType"
  | VBool _ => "bool"
  | VInt _ => "int"
  | VFloat _ => "float"
  | VStr _ => "str"
  | VList _ => "list"
  | VDict _ => "dict"
  end.

(** ** Strings *)

(** A byte of the form [10xxxxxx] continues a code point. *)
Definition is_continuation (a : ascii) : bool :=
  let n := N_of_ascii a in (128 <=? n)%N && (n <? 192)%N.

(** [len(s)]: the number of code points of [s]. *)
Fixpoint py_len (s : string) : nat :=
  match s with
  | EmptyString => 0
  | String a r => if is_continuation a then py_len r else S (py_len r)
  end.

(** [s.startswith(p)] *)
Fixpoint startswith (p s : string) : bool :=
  match p, s with
  | EmptyString, _ => true
  | String a p', String b s' => Ascii.eqb a b && startswith p' s'
  | String _ _, EmptyString => false
  end.

(** [s[n:]] for a string whose first [n] code points are ASCII. *)
Fixpoint str_drop (n : nat) (s : string) : string :=
  match n, s with
  | O, _ => s
  | S n', String _ r => str_drop n' r
  | S _, EmptyString => EmptyString
  end.

(** [p in s] for strings. *)
Fixpoint str_contains (p s : string) : bool :=
  startswith p s ||
  match s with
  | EmptyString => false
  | String _ r => str_contains p r
  end.

Definition dquote : string := String (ascii_of_nat 34) EmptyString.

(** Strict UTF-8 well-formedness, the condition under which
    [bytes.decode('utf-8')] returns. *)
Definition byte_in (lo hi : N) (a : ascii) : bool :=
  let n := N_of_ascii a in (lo <=? n)%N && (n <=? hi)%N.

Fixpoint utf8_valid (b : string) : bool :=
  match b with
  | EmptyString => true
  | String b0 r0 =>
      if byte_in 0 127 b0 then utf8_valid r0
      else if byte_in 194 223 b0 then
        match r0 with
        | String b1 r1 => byte_in 128 191 b1 && utf8_valid r1
        | _ => false
        end
      else if byte_in 224 239 b0 then
        match r0 with
        | String b1 (String b2 r2) =>
            (if byte_in 224 224 b0 then byte_in 160 191 b1
             else if byte_in 237 237 b0 then byte_in 128 159 b1
             else byte_in 128 191 b1)
            && byte_in 128 191 b2 && utf8_valid r2
        | _ => false
        end
      else if byte_in 240 244 b0 then
        match r0 with
        | String b1 (String b2 (String b3 r3)) =>
            (if byte_in 240 240 b0 then byte_in 144 191 b1
             else if byte_in 244 244 b0 then byte_in 128 143 b1
             else byte_in 128 191 b1)
            && byte_in 128 191 b2 && byte_in 128 191 b3 && utf8_valid r3
        | _ => false
        end
      else false
  end.

(** ** Exceptions *)

Inductive exn_class :=
| JSONDecodeError
| UnicodeDecodeError
| HTTPStatusError
| RequestError
| AttributeError
| TypeError
| KeyError
| UnboundLocalError
| OtherException.

(** An exception: its class, [str(e)] and, for an [httpx.HTTPStatusError],
    the status code and text of the response it carries. *)
Record exn := mkExn {
  exn_type : exn_class;
  exn_str : string;
  exn_response : option (Z * string)
}.

(** [isinstance(e, httpx.HTTPError)] *)
Definition is_HTTPError (e : exn) : bool :=
  match exn_type e with
  | HTTPStatusError | RequestError => true
  | _ => false
  end.

(** [isinstance(e, json.JSONDecodeError)] *)
Definition is_JSONDecodeError (e : exn) : bool :=
  match exn_type e with
  | JSONDecodeError => true
  | _ => false
  end.

Inductive result (A : Type) :=
| Ok (a : A)
| Raise (e : exn).
Arguments Ok {A} a.
Arguments Raise {A} e.

(** Exceptions raised by the interpreter itself (CPython 3.12 wording). *)
Definition no_attribute (v : pyval) (attr : string) : exn :=
  mkExn AttributeError
    ("'" +:+ type_name v +:+ "' object has no attribute '" +:+ attr +:+ "'") None.

Definition not_iterable (v : pyval) : exn :=
  mkExn TypeError ("argument of type '" +:+ type_name v +:+ "' is not iterable") None.

Definition bad_index (v : pyval) : exn :=
  mkExn TypeError
    (match v with
     | VList _ => "list indices must be integers or slices, not str"
     | VStr _ => "string indices must be integers, not 'str'"
     | _ => "'" +:+ type_name v +:+ "' object is not subscriptable"
     end) None.

Definition key_error (k : string) : exn :=
  mkExn KeyError ("'" +:+ k +:+ "'") None.

Definition cannot_concatenate (v : pyval) : exn :=
  mkExn TypeError
    ("can only concatenate str (not " +:+ dquote +:+ type_name v +:+ dquote +:+ ") to str")
    None.

Definition unhashable (v : pyval) : exn :=
  mkExn TypeError ("unhashable type: '" +:+ type_name v +:+ "'") None.

Definition unbound_local (name : string) : exn :=
  mkExn UnboundLocalError
    ("cannot access local variable '" +:+ name
       +:+ "' where it is not associated with a value") None.

Definition invalid_utf8 : exn :=
  mkExn UnicodeDecodeError "'utf-8' codec can't decode bytes" None.

Definition not_json_text (v : pyval) : exn :=
  mkExn TypeError
    ("the JSON object must be str, bytes or bytearray, not " +:+ type_name v) None.

(** ** Operations on values that may raise *)

(** The value of [key] in the items [d] of a dict *)
Fixpoint dict_lookup (key : string) (d : list (string * pyval)) : option pyval :=
  match d with
  | [] => None
  | (k, x) :: rest => if String.eqb k key then Some x else dict_lookup key rest
  end.

(** [v.get(key, default)] *)
Definition method_get (v : pyval) (key : string) (default : pyval) : result pyval :=
  match v with
  | VDict d => Ok (match dict_lookup key d with Some x => x | None => default end)
  | _ => Raise (no_attribute v "get")
  end.

Definition is_str (s : string) (v : pyval) : bool := py_eq_str v s.

(** [key in v] for a string literal [key] *)
Definition py_in (key : string) (v : pyval) : result bool :=
  match v with
  | VDict d => Ok (match dict_lookup key d with Some _ => true | None => false end)
  | VList l => Ok (existsb (is_str key) l)
  | VStr s => Ok (str_contains key s)
  | _ => Raise (not_iterable v)
  end.

(** [v[key]] for a string literal [key] *)
Definition py_getitem (v : pyval) (key : string) : result pyval :=
  match v with
  | VDict d =>
      match dict_lookup key d with
      | Some x => Ok x
      | None => Raise (key_error key)
      end
  | _ => Raise (bad_index v)
  end.

(** [s += v] on a local of type [str] *)
Definition str_iadd (s : string) (v : pyval) : result string :=
  match v with
  | VStr t => Ok (s +:+ t)
  | _ => Raise (cannot_concatenate v)
  end.

(** [body.decode('utf-8')] *)
Definition decode_utf8 (body : string) : result string :=
  if utf8_valid body then Ok body else Raise invalid_utf8.

(** ** The world outside the process *)

(** The body of a streaming response: lines, ended either by the normal end
    of the stream or by an exception.  A request that fails before the
    first line (connection error, [raise_for_status]) is [SRaise] alone. *)
Inductive line_stream :=
| SEnd
| SRaise (e : exn)
| SLine (line : string) (rest : line_stream).

Record world := mkWorld {
  (** outcome of the token exchange: [post], [raise_for_status] and
      [response.json()] *)
  token_exchange : result pyval;
  (** outcome of the streaming [POST .../chat-messages] *)
  chat_messages : line_stream;
  (** outcome of the [n]-th [POST .../im/v1/messages] of the run, counted
      from 0: [None] when [post], [raise_for_status] and [response.json()]
      all return *)
  messages_post : nat -> option exn;
  (** value of the [n]-th [datetime.now()] of the run *)
  datetime_now : nat -> Z;
  (** [str(uuid.uuid4())] *)
  uuid4 : string
}.

(** [lines] followed by [rest] *)
Fixpoint lines_then (lines : list string) (rest : line_stream) : line_stream :=
  match lines with
  | [] => rest
  | l :: ls => SLine l (lines_then ls rest)
  end.

(** The world whose chat stream is [s] and that is [w] otherwise. *)
Definition with_chat_messages (w : world) (s : line_stream) : world :=
  mkWorld (token_exchange w) s (messages_post w) (datetime_now w) (uuid4 w).

(** ** State and effects *)

Inductive level := ERROR | WARNING.

Inductive effect :=
| Log (lvl : level) (msg : string)
(** [POST .../auth/v3/tenant_access_token/internal] *)
| TokenPost
(** streaming [POST {DIFY_API_ENDPOINT}/chat-messages] with JSON body [data] *)
| ChatMessagesPost (data : pyval)
(** [POST .../im/v1/messages?receive_id_type=...] with bearer
    [access_token] and body [{receive_id, msg_type,
    content: json.dumps({"text": content})}] *)
| MessagesPost (receive_id_type : string) (access_token : pyval)
    (receive_id msg_type content : string)
(** [conversation_store.get(key, {})] *)
| StoreGet (key : pyval)
(** [asyncio.create_task(process_ai_response(text, receive_id, conversation_id))] *)
| CreateTask (text receive_id conversation_id : pyval).

(** A value of [conversation_store] *)
Record conversation := mkConversation {
  conversation_id : pyval;
  updated_at : Z
}.

Record state := mkState {
  conversation_store : gmap string conversation;
  trace : list effect;
  (** number of [POST .../im/v1/messages] issued so far *)
  posts : nat;
  (** number of [datetime.now()] calls so far *)
  clock : nat
}.

(** ** The monad of effectful, fallible computations *)

Definition M (A : Type) : Type := state -> result A * state.

Definition ret {A} (a : A) : M A := fun st => (Ok a, st).

Definition raise {A} (e : exn) : M A := fun st => (Raise e, st).

Definition bind {A B} (c : M A) (k : A -> M B) : M B :=
  fun st =>
    match c st with
    | (Ok a, st') => k a st'
    | (Raise e, st') => (Raise e, st')
    end.

(** [try: c  except Exception as e: h e] *)
Definition try_except {A} (c : M A) (h : exn -> M A) : M A :=
  fun st =>
    match c st with
    | (Ok a, st') => (Ok a, st')
    | (Raise e, st') => h e st'
    end.

Definition lift {A} (r : result A) : M A := fun st => (r, st).

Definition emit (e : effect) : M unit :=
  fun st =>
    (Ok tt, mkState (conversation_store st) (trace st ++ [e]) (posts st) (clock st)).

Definition log (lvl : level) (msg : string) : M unit := emit (Log lvl msg).

Declare Scope py_scope.
Delimit Scope py_scope with py.
Notation "x <- c ;; k" := (bind c (fun x => k))
  (at level 100, c at next level, right associativity) : py_scope.
Notation "c ;; k" := (bind c (fun _ => k))
  (at level 100, right associativity) : py_scope.
Open Scope py_scope.

(** A generator is run to the list of what it does between two resumptions:
    the records it logs, the request it issues and the values it yields. *)
Inductive gen_item :=
| GLog (lvl : level) (msg : string)
| GRequest (data : pyval)
| GYield (v : pyval).

(** The values a generator yields, in order. *)
Fixpoint yielded (items : list gen_item) : list pyval :=
  match items with
  | [] => []
  | GYield v :: rest => v :: yielded rest
  | _ :: rest => yielded rest
  end.

(** The message posts of a trace, in order. *)
Record delivery := mkDelivery {
  d_receive_id_type : string;
  d_access_token : pyval;
  d_receive_id : string;
  d_msg_type : string;
  d_content : string
}.

Fixpoint deliveries (tr : list effect) : list delivery :=
  match tr with
  | [] => []
  | MessagesPost t a r m c :: rest => mkDelivery t a r m c :: deliveries rest
  | _ :: rest => deliveries rest
  end.

(** The records logged at a level, in order. *)
Fixpoint logged (lvl : level) (tr : list effect) : list string :=
  match tr with
  | [] => []
  | Log ERROR msg :: rest =>
      match lvl with ERROR => msg :: logged lvl rest | WARNING => logged lvl rest end
  | Log WARNING msg :: rest =>
      match lvl with WARNING => msg :: logged lvl rest | ERROR => logged lvl rest end
  | _ :: rest => logged lvl rest
  end.


(** ** A small JSON library, to run the program on examples

    The program is stated, below, for any [json.loads], [json.dumps] and
    [repr].  This module gives instances on a fragment of JSON: objects,
    arrays, strings without escapes, integers and the three literals. *)

Module Demo.

Definition is_ws (a : ascii) : bool :=
  let n := N_of_ascii a in
  (n =? 32)%N || (n =? 9)%N || (n =? 10)%N || (n =? 13)%N.

Definition is_digit (a : ascii) : bool := byte_in 48 57 a.

Definition is_char (n : N) (a : ascii) : bool := (N_of_ascii a =? n)%N.

Fixpoint skip_ws (s : string) : string :=
  match s with
  | String a r => if is_ws a then skip_ws r else s
  | EmptyString => s
  end.

(** The characters up to the closing quote, and what follows it. *)
Fixpoint read_string (s : string) : option (string * string) :=
  match s with
  | EmptyString => None
  | String a r =>
      if is_char 34 a then Some ("", r)
      else if is_char 92 a || byte_in 0 31 a then None
      else match read_string r with
           | Some (t, rest) => Some (String a t, rest)
           | None => None
           end
  end.

Fixpoint read_digits (s : string) (n : Z) : Z * string :=
  match s with
  | String a r =>
      if is_digit a
      then read_digits r (10 * n + Z.of_N (N_of_ascii a - 48))%Z
      else (n, s)
  | EmptyString => (n, s)
  end.

(** An integer that is not the start of a fraction or of an exponent. *)
Definition read_int (s : string) : option (Z * string) :=
  let '(negative, s1) :=
    match s with
    | String a r => if is_char 45 a then (true, r) else (false, s)
    | EmptyString => (false, s)
    end in
  match s1 with
  | String a r =>
      if is_digit a then
        let '(n, rest) := if is_char 48 a then (0%Z, r) else read_digits s1 0 in
        match rest with
        | String c _ =>
            if is_char 46 c || is_char 101 c || is_char 69 c then None
            else Some (if negative then (- n)%Z else n, rest)
        | EmptyString => Some (if negative then (- n)%Z else n, rest)
        end
      else None
  | EmptyString => None
  end.

(** [d[key] = v] *)
Fixpoint dict_set (key : string) (v : pyval) (d : list (string * pyval)) :
    list (string * pyval) :=
  match d with
  | [] => [(key, v)]
  | (k, x) :: rest =>
      if String.eqb k key then (k, v) :: rest else (k, x) :: dict_set key v rest
  end.

Fixpoint read_value (fuel : nat) (s : string) {struct fuel} : option (pyval * string) :=
  match fuel with
  | O => None
  | S fuel' =>
      let s := skip_ws s in
      if startswith "null" s then Some (VNone, str_drop 4 s)
      else if startswith "true" s then Some (VBool true, str_drop 4 s)
      else if startswith "false" s then Some (VBool false, str_drop 5 s)
      else
        match s with
        | EmptyString => None
        | String a r =>
            if is_char 34 a then
              match read_string r with
              | Some (t, rest) => Some (VStr t, rest)
              | None => None
              end
            else if is_char 91 a then
              if startswith "]" (skip_ws r) then Some (VList [], str_drop 1 (skip_ws r))
              else
                (fix elements (n : nat) (s : string) (acc : list pyval) :=
                   match n with
                   | O => None
                   | S n' =>
                       match read_value fuel' s with
                       | None => None
                       | Some (v, rest) =>
                           match skip_ws rest with
                           | String c rest' =>
                               if is_char 44 c then elements n' rest' (acc ++ [v])
                               else if is_char 93 c then Some (VList (acc ++ [v]), rest')
                               else None
                           | EmptyString => None
                           end
                       end
                   end) fuel' r []
            else if is_char 123 a then
              if startswith "}" (skip_ws r) then Some (VDict [], str_drop 1 (skip_ws r))
              else
                (fix members (n : nat) (s : string) (acc : list (string * pyval)) :=
                   match n with
                   | O => None
                   | S n' =>
                       match skip_ws s with
                       | String q s1 =>
                           if is_char 34 q then
                             match read_string s1 with
                             | None => None
                             | Some (key, s2) =>
                                 match skip_ws s2 with
                                 | String colon s3 =>
                                     if is_char 58 colon then
                                       match read_value fuel' s3 with
                                       | None => None
                                       | Some (v, rest) =>
                                           match skip_ws rest with
                                           | String c rest' =>
                                               if is_char 44 c
                                               then members n' rest' (dict_set key v acc)
                                               else if is_char 125 c
                                               then Some (VDict (dict_set key v acc), rest')
                                               else None
                                           | EmptyString => None
                                           end
                                       end
                                     else None
                                 | EmptyString => None
                                 end
                             end
                           else None
                       | EmptyString => None
                       end
                   end) fuel' r []
            else
              match read_int s with
              | Some (n, rest) => Some (VInt n, rest)
              | None => None
              end
        end
  end.

Definition decode_error : exn := mkExn JSONDecodeError "Expecting value" None.

(** [json.loads] on the fragment *)
Definition loads (s : string) : result pyval :=
  match read_value (S (String.length s)) s with
  | Some (v, rest) =>
      match skip_ws rest with
      | EmptyString => Ok v
      | _ => Raise decode_error
      end
  | None => Raise decode_error
  end.

Fixpoint show_digits (fuel : nat) (n : N) (acc : string) : string :=
  match fuel with
  | O => acc
  | S fuel' =>
      let acc' := String (ascii_of_N (48 + n mod 10)) acc in
      if (n <? 10)%N then acc' else show_digits fuel' (n / 10) acc'
  end.

Definition show_int (z : Z) : string :=
  let n := Z.abs_N z in
  (if (z <? 0)%Z then "-" else "") +:+ show_digits (S (N.to_nat (N.log2 n))) n "".

(** Strings are written between quotes as they are, which is right for
    the strings that need no escape; of the floats, only the zeros are
    written. *)
Fixpoint show (python : bool) (v : pyval) : string :=
  let quote := if python then "'" else dquote in
  match v with
  | VNone => if python then "None" else "null"
  | VBool true => if python then "True" else "true"
  | VBool false => if python then "False" else "false"
  | VInt z => show_int z
  | VFloat (S754_zero false) => "0.0"
  | VFloat (S754_zero true) => "-0.0"
  | VFloat _ => "nan"
  | VStr s => quote +:+ s +:+ quote
  | VList l =>
      "[" +:+
      (fix elements (l : list pyval) : string :=
         match l with
         | [] => ""
         | [x] => show python x
         | x :: rest => show python x +:+ ", " +:+ elements rest
         end) l
      +:+ "]"
  | VDict d =>
      "{" +:+
      (fix members (d : list (string * pyval)) : string :=
         match d with
         | [] => ""
         | [(k, x)] => quote +:+ k +:+ quote +:+ ": " +:+ show python x
         | (k, x) :: rest =>
             quote +:+ k +:+ quote +:+ ": " +:+ show python x +:+ ", " +:+ members rest
         end) d
      +:+ "}"
  end.

(** [json.dumps] on the fragment, whatever [ensure_ascii] *)
Definition dumps (ensure_ascii : bool) (v : pyval) : string := show false v.

(** [repr] on the fragment *)
Definition repr (v : pyval) : string := show true v.

(** [s] written between double quotes *)
Definition quoted (s : string) : string := dquote +:+ s +:+ dquote.

(** *** Worlds and events for the examples *)

(** [data: {"event": "message", "answer": answer}] *)
Definition line_message (answer : string) : string :=
  "data: {" +:+ quoted "event" +:+ ": " +:+ quoted "message" +:+ ", "
  +:+ quoted "answer" +:+ ": " +:+ quoted answer +:+ "}".

(** [data: {"event": "message_end", "conversation_id": cid}] *)
Definition line_message_end (cid : string) : string :=
  "data: {" +:+ quoted "event" +:+ ": " +:+ quoted "message_end" +:+ ", "
  +:+ quoted "conversation_id" +:+ ": " +:+ quoted cid +:+ "}".

Definition message (answer : string) : pyval :=
  VDict [("event", VStr "message"); ("answer", VStr answer)].

Definition message_end (cid : string) : pyval :=
  VDict [("event", VStr "message_end"); ("conversation_id", VStr cid)].

Definition token_data : pyval :=
  VDict [("code", VInt 0); ("msg", VStr "ok");
         ("tenant_access_token", VStr "t-g1044"); ("expire", VInt 7200)].

Definition token : pyval := VStr "t-g1044".

Definition now (n : nat) : Z := 1700000000 + Z.of_nat n.

Definition server_error : exn :=
  mkExn HTTPStatusError "Server error '500 Internal Server Error'"
    (Some (500%Z, "internal error")).

Definition connect_error : exn :=
  mkExn RequestError "All connection attempts failed" None.

(** A world where the token exchange returns, the chat stream is [lines]
    and the message posts go as [posts] says. *)
Definition world_of (lines : list string) (posts : nat -> option exn) : world :=
  mkWorld (Ok token_data) (lines_then lines SEnd) posts now
    "0b9e8a54-3a55-4c0f-9d0a-6f3c1f2f7a11".

Definition always_delivered : nat -> option exn := fun _ => None.

Definition first_post_fails : nat -> option exn :=
  fun n => match n with O => Some server_error | S _ => None end.

(** The state of a process that has done nothing yet. *)
Definition st0 : state := mkState ∅ [] 0 0.

(** The state once the token has been acquired. *)
Definition st1 : state := mkState ∅ [TokenPost] 0 0.

(** A fragment of 52 characters *)
Definition long_text : string :=
  "Hi there, how can I help you today with your inquiry".

(** [loads] extended at one text, for a body with escapes in its strings. *)
Definition loads_with (body : string) (data : pyval) (s : string) : result pyval :=
  if String.eqb s body then Ok data else loads s.

Definition backslash : string := String (ascii_of_nat 92) EmptyString.

(** [s] as it is written inside a JSON string: between escaped quotes *)
Definition escaped (s : string) : string :=
  backslash +:+ dquote +:+ s +:+ backslash +:+ dquote.

(** [{"text": text}], the content of a text message *)
Definition content_of (text : string) : string :=
  "{" +:+ quoted "text" +:+ ": " +:+ quoted text +:+ "}".

(** The body of the event of a text message [text] sent by [open_id] in the
    chat [chat_id]. *)
Definition text_body (text chat_id open_id : string) : string :=
  "{" +:+ quoted "event" +:+ ": {"
  +:+ quoted "message" +:+ ": {"
  +:+ quoted "message_type" +:+ ": " +:+ quoted "text" +:+ ", "
  +:+ quoted "content" +:+ ": " +:+ dquote
  +:+ "{" +:+ escaped "text" +:+ ": " +:+ escaped text +:+ "}" +:+ dquote +:+ ", "
  +:+ quoted "chat_id" +:+ ": " +:+ quoted chat_id +:+ "}, "
  +:+ quoted "sender" +:+ ": {" +:+ quoted "sender_id" +:+ ": {"
  +:+ quoted "open_id" +:+ ": " +:+ quoted open_id +:+ "}}}}".

(** What [json.loads] makes of [text_body text chat_id open_id]. *)
Definition text_data (text chat_id open_id : string) : pyval :=
  VDict
    [("event",
      VDict
        [("message",
          VDict
            [("message_type", VStr "text");
             ("content", VStr (content_of text));
             ("chat_id", VStr chat_id)]);
         ("sender",
          VDict [("sender_id", VDict [("open_id", VStr open_id)])])])].

(** The body of the event of an image message. *)
Definition image_body : string :=
  "{" +:+ quoted "event" +:+ ": {" +:+ quoted "message" +:+ ": {"
  +:+ quoted "message_type" +:+ ": " +:+ quoted "image" +:+ "}}}".

End Demo.

(** ** The program *)

Section Relay.

(** Library functions the module calls and does not define. *)

(** [json.loads] on a [str] *)
Variable json_loads : string -> result pyval.
(** [json.dumps], by the value of [ensure_ascii] *)
Variable json_dumps : bool -> pyval -> string.
(** [repr] *)
Variable py_repr : pyval -> string.

(** [str(v)], which is how an f-string formats [v] *)
Definition py_str (v : pyval) : string :=
  match v with
  | VStr s => s
  | _ => py_repr v
  end.

(** [json.loads(v)] on an arbitrary value *)
Definition py_json_loads (v : pyval) : result pyval :=
  match v with
  | VStr s => json_loads s
  | _ => Raise (not_json_text v)
  end.

(** *** [get_feishu_access_token] *)

Definition get_feishu_access_token (w : world) : M pyval :=
  try_except
    (emit TokenPost ;;
     token_data <- lift (token_exchange w) ;;
     lift (method_get token_data "tenant_access_token" VNone))
    (fun e =>
       log ERROR ("获取飞书访问令牌错误: " +:+ exn_str e) ;;
       raise e).

(** *** [call_dify_api] *)

Definition error_event (message : string) : pyval :=
  VDict [("event", VStr "error"); ("message", VStr message)].

(** The handler of the outer [try] of [call_dify_api]: it ends the
    generator. *)
Definition dify_failed (e : exn) : list gen_item :=
  [GLog ERROR ("调用Dify API错误: " +:+ exn_str e);
   GYield (error_event (exn_str e))].

(** [async for line in response.aiter_lines(): ...] *)
Fixpoint aiter_lines (lines : line_stream) : list gen_item :=
  match lines with
  | SEnd => []
  | SRaise e => dify_failed e
  | SLine line rest =>
      if startswith "data: " line then
        match json_loads (str_drop 6 line) with
        | Raise e =>
            if is_JSONDecodeError e
            then GLog ERROR ("JSON解析错误: " +:+ exn_str e) :: aiter_lines rest
            else dify_failed e
        | Ok event_data =>
            match py_in "error" event_data with
            | Raise e => dify_failed e
            | Ok true =>
                match py_getitem event_data "error" with
                | Raise e => dify_failed e
                | Ok err =>
                    GLog ERROR ("MCP API错误: " +:+ py_str err)
                      :: GYield (error_event ("MCP API错误: " +:+ py_str err))
                      :: aiter_lines rest
                end
            | Ok false => GYield event_data :: aiter_lines rest
            end
        end
      else aiter_lines rest
  end.

Definition call_dify_api (w : world) (message : pyval) (user_id : string)
    (conversation_id : pyval) : list gen_item :=
  let data :=
    VDict
      [("inputs",
        VDict
          [("message", message);
           ("session_id",
            if truthy conversation_id then conversation_id else VStr (uuid4 w));
           ("stream", VBool true)]);
       ("query", message);
       ("user", VStr user_id);
       ("response_mode", VStr "streaming");
       ("conversation_id", conversation_id)] in
  GRequest data :: aiter_lines (chat_messages w).

(** *** [send_feishu_message] *)

Definition receive_id_type_of (receive_id : string) : string :=
  if startswith "oc_" receive_id then "chat_id"
  else if startswith "ou_" receive_id then "open_id"
  else "chat_id".

(** [client.post(...)], [raise_for_status()] and [response.json()] *)
Definition post_message (w : world) (receive_id_type : string)
    (access_token : pyval) (receive_id msg_type content : string) : M unit :=
  fun st =>
    let st' :=
      mkState (conversation_store st)
        (trace st ++ [MessagesPost receive_id_type access_token receive_id msg_type content])
        (S (posts st)) (clock st) in
    match messages_post w (posts st) with
    | None => (Ok tt, st')
    | Some e => (Raise e, st')
    end.

Definition send_feishu_message (w : world) (access_token : pyval)
    (receive_id content : string) : M unit :=
  let msg_type := "text" in
  (if startswith "oc_" receive_id || startswith "ou_" receive_id
   then ret tt
   else log WARNING ("未知 receive_id 类型: " +:+ receive_id)) ;;
  let data :=
    VDict
      [("receive_id", VStr receive_id);
       ("msg_type", VStr msg_type);
       ("content", VStr (json_dumps false (VDict [("text", VStr content)])))] in
  try_except
    (post_message w (receive_id_type_of receive_id) access_token receive_id msg_type content)
    (fun e =>
       log ERROR ("发送飞书消息错误: " +:+ exn_str e) ;;
       log ERROR ("请求数据: " +:+ py_repr data) ;;
       (match exn_response e with
        | Some (status_code, text) =>
            if is_HTTPError e then
              log ERROR ("响应状态码: " +:+ py_repr (VInt status_code)) ;;
              log ERROR ("响应内容: " +:+ text)
            else ret tt
        | None => ret tt
        end) ;;
       raise e).

(** *** [process_ai_response] *)

(** [conversation_store[user_id] = {"conversation_id": ..., "updated_at":
    datetime.now()}] *)
Definition store_conversation (w : world) (user_id : string)
    (new_conversation_id : pyval) : M unit :=
  fun st =>
    (Ok tt,
     mkState
       (<[user_id := mkConversation new_conversation_id (datetime_now w (clock st))]>
          (conversation_store st))
       (trace st) (posts st) (S (clock st))).

(** The body of the [async for] loop; the local [accumulated_response]
    goes in and comes out. *)
Definition handle_event (w : world) (access_token : pyval) (user_id : string)
    (accumulated_response : string) (event_data : pyval) : M string :=
  event_type <- lift (method_get event_data "event" VNone) ;;
  if py_eq_str event_type "message" then
    answer_chunk <- lift (method_get event_data "answer" (VStr "")) ;;
    accumulated_response <- lift (str_iadd accumulated_response answer_chunk) ;;
    if (50 <=? py_len accumulated_response)%nat then
      try_except
        (send_feishu_message w access_token user_id accumulated_response ;;
         ret "")
        (fun e =>
           log ERROR ("发送消息块错误: " +:+ exn_str e) ;;
           ret accumulated_response)
    else ret accumulated_response
  else if py_eq_str event_type "message_end" then
    (if truthy (VStr accumulated_response) then
       try_except
         (send_feishu_message w access_token user_id accumulated_response)
         (fun e => log ERROR ("发送最终消息错误: " +:+ exn_str e))
     else ret tt) ;;
    new_conversation_id <- lift (method_get event_data "conversation_id" VNone) ;;
    (if truthy new_conversation_id
     then store_conversation w user_id new_conversation_id
     else ret tt) ;;
    ret accumulated_response
  else if py_eq_str event_type "error" then
    error_message <- lift (method_get event_data "message" (VStr "未知错误")) ;;
    log ERROR ("AI响应错误: " +:+ py_str error_message) ;;
    try_except
      (send_feishu_message w access_token user_id
         ("处理您的请求时遇到错误: " +:+ py_str error_message))
      (fun e => log ERROR ("发送错误消息失败: " +:+ exn_str e)) ;;
    ret accumulated_response
  else ret accumulated_response.

(** [async for event_data in call_dify_api(...)]: the generator is resumed
    item by item; when the body raises it is not resumed again. *)
Fixpoint consume (w : world) (access_token : pyval) (user_id : string)
    (items : list gen_item) (accumulated_response : string) : M string :=
  match items with
  | [] => ret accumulated_response
  | GLog lvl msg :: rest =>
      log lvl msg ;;
      consume w access_token user_id rest accumulated_response
  | GRequest data :: rest =>
      emit (ChatMessagesPost data) ;;
      consume w access_token user_id rest accumulated_response
  | GYield event_data :: rest =>
      accumulated_response <-
        handle_event w access_token user_id accumulated_response event_data ;;
      consume w access_token user_id rest accumulated_response
  end.

(** The handler of the outer [try]; [access_token] is the local variable,
    bound only if [get_feishu_access_token] returned. *)
Definition system_error (w : world) (access_token : option pyval)
    (user_id : string) (e : exn) : M unit :=
  log ERROR ("处理AI响应过程中发生错误: " +:+ exn_str e) ;;
  try_except
    (token <- (match access_token with
               | Some t => ret t
               | None => raise (unbound_local "access_token")
               end) ;;
     send_feishu_message w token user_id ("系统错误: " +:+ exn_str e))
    (fun send_error => log ERROR ("发送系统错误消息失败: " +:+ exn_str send_error)).

Definition process_ai_response (w : world) (message : pyval) (user_id : string)
    (conversation_id : pyval) : M unit :=
  fun st =>
    match get_feishu_access_token w st with
    | (Raise e, st1) => system_error w None user_id e st1
    | (Ok access_token, st1) =>
        match consume w access_token user_id
                (call_dify_api w message user_id conversation_id) "" st1 with
        | (Raise e, st2) => system_error w (Some access_token) user_id e st2
        | (Ok _, st2) => (Ok tt, st2)
        end
    end.

(** *** [feishu_webhook] *)

Record response := mkResponse {
  content : string;
  media_type : string
}.

(** [conversation_store.get(receive_id, {})]: the store is a
    [Dict[str, Dict]], so a key that is not a string is either
    unhashable or absent. *)
Definition store_get (receive_id : pyval) : M (option conversation) :=
  match receive_id with
  | VList _ | VDict _ => raise (unhashable receive_id)
  | VStr key =>
      emit (StoreGet receive_id) ;;
      fun st => (Ok (conversation_store st !! key), st)
  | _ =>
      emit (StoreGet receive_id) ;;
      ret None
  end.

Definition success_payload : pyval :=
  VDict [("code", VInt 0); ("msg", VStr "success")].

Definition challenge_payload (challenge : pyval) : pyval :=
  VDict [("challenge", challenge); ("code", VInt 0)].

Definition success_response : response :=
  mkResponse (json_dumps true success_payload) "application/json".

(** The block under [if "event" in data:] *)
Definition handle_message_event (data : pyval) : M unit :=
  event <- lift (method_get data "event" (VDict [])) ;;
  message <- lift (method_get event "message" (VDict [])) ;;
  message_type <- lift (method_get message "message_type" VNone) ;;
  if py_eq_str message_type "text" then
    message_content <- lift (method_get message "content" (VStr "{}")) ;;
    content_json <- lift (py_json_loads message_content) ;;
    text <- lift (method_get content_json "text" (VStr "")) ;;
    sender <- lift (method_get event "sender" (VDict [])) ;;
    sender_id_obj <- lift (method_get sender "sender_id" (VDict [])) ;;
    sender_id <- lift (method_get sender_id_obj "open_id" VNone) ;;
    chat_id <- lift (method_get message "chat_id" VNone) ;;
    let receive_id := if truthy chat_id then chat_id else sender_id in
    if truthy receive_id then
      conversation_data <- store_get receive_id ;;
      let conversation_id :=
        match conversation_data with
        | Some c => conversation_id c
        | None => VNone
        end in
      emit (CreateTask text receive_id conversation_id)
    else ret tt
  else ret tt.

(** [request_body] is the outcome of [await request.body()]. *)
Definition feishu_webhook (request_body : result string) : M response :=
  try_except
    (body <- lift request_body ;;
     body_str <- lift (decode_utf8 body) ;;
     data <- lift (json_loads body_str) ;;
     has_challenge <- lift (py_in "challenge" data) ;;
     if has_challenge : bool then
       challenge <- lift (py_getitem data "challenge") ;;
       ret (mkResponse (json_dumps true (challenge_payload challenge))
              "application/json")
     else
       has_event <- lift (py_in "event" data) ;;
       (if has_event : bool then handle_message_event data else ret tt) ;;
       ret success_response)
    (fun e =>
       log ERROR ("处理webhook错误: " +:+ exn_str e) ;;
       ret success_response).

(** *** Vocabulary of the stream events *)

(** [ev] is a Message event carrying the answer fragment [fragment]. *)
Definition is_Message (ev : pyval) (fragment : string) : Prop :=
  method_get ev "event" VNone = Ok (VStr "message")
  /\ method_get ev "answer" (VStr "") = Ok (VStr fragment).

(** [ev] is a MessageEnd event whose [conversation_id] field reads [cid]
    ([VNone] when the field is absent). *)
Definition is_MessageEnd (ev : pyval) (cid : pyval) : Prop :=
  method_get ev "event" VNone = Ok (VStr "message_end")
  /\ method_get ev "conversation_id" VNone = Ok cid.

(** *** What one call of [send_feishu_message] adds to the trace *)

Definition send_failure_logs (receive_id content : string) (e : exn) : list effect :=
  [Log ERROR ("发送飞书消息错误: " +:+ exn_str e);
   Log ERROR
     ("请求数据: " +:+
      py_repr
        (VDict
           [("receive_id", VStr receive_id);
            ("msg_type", VStr "text");
            ("content", VStr (json_dumps false (VDict [("text", VStr content)])))]))]
  ++ match exn_response e with
     | Some (status_code, text) =>
         if is_HTTPError e
         then [Log ERROR ("响应状态码: " +:+ py_repr (VInt status_code));
               Log ERROR ("响应内容: " +:+ text)]
         else []
     | None => []
     end.

Definition send_effects (access_token : pyval) (receive_id content : string)
    (outcome : option exn) : list effect :=
  (if startswith "oc_" receive_id || startswith "ou_" receive_id
   then []
   else [Log WARNING ("未知 receive_id 类型: " +:+ receive_id)])
  ++ [MessagesPost (receive_id_type_of receive_id) access_token receive_id "text" content]
  ++ match outcome with
     | None => []
     | Some e => send_failure_logs receive_id content e
     end.

(** The state after one more message post that added [tr] to the trace. *)
Definition after_post (st : state) (tr : list effect) : state :=
  mkState (conversation_store st) (trace st ++ tr) (S (posts st)) (clock st).

(** The state with [tr] added to the trace. *)
Definition after_effects (st : state) (tr : list effect) : state :=
  mkState (conversation_store st) (trace st ++ tr) (posts st) (clock st).

(** The delivery a flush of [content] to [user_id] makes. *)
Definition flush_of (access_token : pyval) (user_id content : string) : delivery :=
  mkDelivery (receive_id_type_of user_id) access_token user_id "text" content.

(** *** The trace is write-only *)

Definition prepend (tr : list effect) (st : state) : state :=
  mkState (conversation_store st) (tr ++ trace st) (posts st) (clock st).

(** A computation is oblivious when what it does on a state does not
    depend on the trace recorded so far. *)
Definition oblivious {A} (c : M A) : Prop :=
  forall tr st, c (prepend tr st) = (fst (c st), prepend tr (snd (c st))).

(** A computation that leaves [conversation_store] as it found it. *)
Definition keeps_store {A} (c : M A) : Prop :=
  forall st, conversation_store (snd (c st)) = conversation_store st.

(** An event that makes no write to the store: if it is a MessageEnd, its
    conversation identifier is absent or empty. *)
Definition writes_nothing (ev : pyval) : Prop :=
  forall cid, is_MessageEnd ev cid -> truthy cid = false.

(** Two states that differ only in what was logged or requested besides
    the message posts. *)
Definition sim (s1 s2 : state) : Prop :=
  conversation_store s1 = conversation_store s2
  /\ deliveries (trace s1) = deliveries (trace s2)
  /\ posts s1 = posts s2
  /\ clock s1 = clock s2.

Definition concat_str (l : list string) : string :=
  fold_right String.append "" l.

(** The state after the flush of a Message that reached the threshold. *)
Definition chunk_flushed (w : world) (access_token : pyval) (user_id text : string)
    (st : state) : state :=
  after_post st
    (send_effects access_token user_id text (messages_post w (posts st))
     ++ match messages_post w (posts st) with
        | Some e => [Log ERROR ("发送消息块错误: " +:+ exn_str e)]
        | None => []
        end).

(** The state after the flush a MessageEnd makes of a non-empty
    accumulator. *)
Definition final_flushed (w : world) (access_token : pyval) (user_id acc : string)
    (st : state) : state :=
  if truthy (VStr acc) then
    after_post st
      (send_effects access_token user_id acc (messages_post w (posts st))
       ++ match messages_post w (posts st) with
          | Some e => [Log ERROR ("发送最终消息错误: " +:+ exn_str e)]
          | None => []
          end)
  else st.

(** The state after a MessageEnd recorded its conversation identifier. *)
Definition recorded (w : world) (user_id : string) (cid : pyval) (st : state) : state :=
  if truthy cid then
    mkState
      (<[user_id := mkConversation cid (datetime_now w (clock st))]>
         (conversation_store st))
      (trace st) (posts st) (S (clock st))
  else st.

(** *** Vocabulary of the further properties *)

(** [ev] is an Error event whose [message] field reads [message]
    (["未知错误"] when the field is absent). *)
Definition is_Error (ev : pyval) (message : pyval) : Prop :=
  method_get ev "event" VNone = Ok (VStr "error")
  /\ method_get ev "message" (VStr "未知错误") = Ok message.

(** [ev] is a dict whose [event] field is none of the three types the loop
    handles. *)
Definition is_ignored (ev : pyval) : Prop :=
  exists t,
    method_get ev "event" VNone = Ok t
    /\ py_eq_str t "message" = false
    /\ py_eq_str t "message_end" = false
    /\ py_eq_str t "error" = false.

(** [v] is not a dict. *)
Definition not_dict (v : pyval) : Prop :=
  match v with
  | VDict _ => False
  | _ => True
  end.

(** Every run of [c] takes a state to one that is [R]-related to it. *)
Definition respects (R : state -> state -> Prop) {A} (c : M A) : Prop :=
  forall st, R st (snd (c st)).

(** What a turn for [user_id] may add to the trace: log records, the token
    request, the chat request, and message posts of type text to [user_id]
    with the token [tok]. *)
Definition turn_effect (user_id : string) (tok : option pyval) (e : effect) : Prop :=
  match e with
  | Log _ _ | TokenPost | ChatMessagesPost _ => True
  | MessagesPost t a r m _ =>
      t = receive_id_type_of user_id /\ tok = Some a /\ r = user_id /\ m = "text"
  | StoreGet _ | CreateTask _ _ _ => False
  end.

(** [st'] comes from [st] by effects a turn for [user_id] may have and by
    writes to the store entry of [user_id] only. *)
Definition turn_frame (user_id : string) (tok : option pyval) (st st' : state) : Prop :=
  (forall k, k <> user_id -> conversation_store st' !! k = conversation_store st !! k)
  /\ exists tr, trace st' = trace st ++ tr /\ Forall (turn_effect user_id tok) tr.

(** What the webhook handler may add to the trace. *)
Definition webhook_effect (e : effect) : Prop :=
  match e with
  | Log _ _ | StoreGet _ | CreateTask _ _ _ => True
  | TokenPost | ChatMessagesPost _ | MessagesPost _ _ _ _ _ => False
  end.

Definition webhook_frame (st st' : state) : Prop :=
  conversation_store st' = conversation_store st
  /\ posts st' = posts st
  /\ clock st' = clock st
  /\ exists tr, trace st' = trace st ++ tr /\ Forall webhook_effect tr.

(** [data] is a message event of type text: its content decodes to a dict
    whose text is [text], its chat is [chat_id] and its sender's open id is
    [open_id] ([VNone] for a field that is absent). *)
Definition text_message (data text chat_id open_id : pyval) : Prop :=
  exists event message content_json sender sender_id_obj message_content,
    method_get data "event" (VDict []) = Ok event
    /\ method_get event "message" (VDict []) = Ok message
    /\ method_get message "message_type" VNone = Ok (VStr "text")
    /\ method_get message "content" (VStr "{}") = Ok message_content
    /\ py_json_loads message_content = Ok content_json
    /\ method_get content_json "text" (VStr "") = Ok text
    /\ method_get event "sender" (VDict []) = Ok sender
    /\ method_get sender "sender_id" (VDict []) = Ok sender_id_obj
    /\ method_get sender_id_obj "open_id" VNone = Ok open_id
    /\ method_get message "chat_id" VNone = Ok chat_id.

(** The [CreateTask] effects of a trace, in order. *)
Fixpoint created_tasks (tr : list effect) : list (pyval * pyval * pyval) :=
  match tr with
  | [] => []
  | CreateTask text receive_id cid :: rest => (text, receive_id, cid) :: created_tasks rest
  | _ :: rest => created_tasks rest
  end.

(** ** Basic facts *)

#[local] Arguments Nat.leb : simpl never.
#[local] Arguments startswith : simpl never.
#[local] Arguments str_drop : simpl never.

Lemma py_len_app (s t : string) : py_len (s +:+ t) = py_len s + py_len t.
Proof.
  induction s as [|a s IH]; simpl; [reflexivity|].
  destruct (is_continuation a); simpl; rewrite IH; reflexivity.
Qed.

Lemma deliveries_app (t1 t2 : list effect) :
  deliveries (t1 ++ t2) = deliveries t1 ++ deliveries t2.
Proof.
  induction t1 as [|e t1 IH]; simpl; [reflexivity|].
  destruct e; simpl; rewrite ?IH; reflexivity.
Qed.

Lemma logged_app (lvl : level) (t1 t2 : list effect) :
  logged lvl (t1 ++ t2) = logged lvl t1 ++ logged lvl t2.
Proof.
  induction t1 as [|e t1 IH]; simpl; [reflexivity|].
  destruct e as [[] msg| | | | |]; destruct lvl; simpl; rewrite ?IH; reflexivity.
Qed.

Lemma deliveries_send_failure_logs (receive_id content_ : string) (e : exn) :
  deliveries (send_failure_logs receive_id content_ e) = [].
Proof.
  unfold send_failure_logs. simpl.
  destruct (exn_response e) as [[code text]|]; [|reflexivity].
  destruct (is_HTTPError e); reflexivity.
Qed.

Lemma deliveries_send_effects (tok : pyval) (receive_id content_ : string)
    (outcome : option exn) :
  deliveries (send_effects tok receive_id content_ outcome)
  = [flush_of tok receive_id content_].
Proof.
  unfold send_effects, flush_of.
  rewrite !deliveries_app.
  destruct (startswith "oc_" receive_id || startswith "ou_" receive_id); simpl;
    (destruct outcome as [e|]; [rewrite deliveries_send_failure_logs|]; reflexivity).
Qed.

(** ** The trace is write-only: every computation of the program is
    oblivious *)

Create HintDb oblivious.

Lemma oblivious_ret {A} (a : A) : oblivious (ret a).
Proof. intros tr st. reflexivity. Qed.

Lemma oblivious_raise {A} (e : exn) : oblivious (@raise A e).
Proof. intros tr st. reflexivity. Qed.

Lemma oblivious_lift {A} (r : result A) : oblivious (lift r).
Proof. intros tr st. reflexivity. Qed.

Lemma oblivious_emit (e : effect) : oblivious (emit e).
Proof.
  intros tr st. unfold emit, prepend. simpl. rewrite app_assoc. reflexivity.
Qed.

Lemma oblivious_log (lvl : level) (msg : string) : oblivious (log lvl msg).
Proof. apply oblivious_emit. Qed.

Lemma oblivious_bind {A B} (c : M A) (k : A -> M B) :
  oblivious c -> (forall a, oblivious (k a)) -> oblivious (bind c k).
Proof.
  intros Hc Hk tr st. unfold bind. rewrite Hc.
  destruct (c st) as [[a|e] st']; simpl; [apply Hk | reflexivity].
Qed.

Lemma oblivious_try_except {A} (c : M A) (h : exn -> M A) :
  oblivious c -> (forall e, oblivious (h e)) -> oblivious (try_except c h).
Proof.
  intros Hc Hh tr st. unfold try_except. rewrite Hc.
  destruct (c st) as [[a|e] st']; simpl; [reflexivity | apply Hh].
Qed.

Lemma oblivious_if {A} (b : bool) (c1 c2 : M A) :
  oblivious c1 -> oblivious c2 -> oblivious (if b then c1 else c2).
Proof. destruct b; auto. Qed.

Hint Resolve oblivious_ret oblivious_raise oblivious_lift oblivious_emit
  oblivious_log oblivious_bind oblivious_try_except oblivious_if : oblivious.

Lemma oblivious_post_message (w : world) (t : string) (tok : pyval)
    (rid mt c : string) : oblivious (post_message w t tok rid mt c).
Proof.
  intros tr st. unfold post_message, prepend. simpl.
  destruct (messages_post w (posts st)); simpl; rewrite app_assoc; reflexivity.
Qed.

Lemma oblivious_store_conversation (w : world) (user_id : string) (cid : pyval) :
  oblivious (store_conversation w user_id cid).
Proof. intros tr st. reflexivity. Qed.

Hint Resolve oblivious_post_message oblivious_store_conversation : oblivious.

Lemma oblivious_send_feishu_message (w : world) (tok : pyval) (rid c : string) :
  oblivious (send_feishu_message w tok rid c).
Proof.
  unfold send_feishu_message.
  apply oblivious_bind; [auto with oblivious|]. intros _.
  apply oblivious_try_except; [auto with oblivious|]. intros e.
  repeat (apply oblivious_bind; [auto with oblivious|]; intros _).
  apply oblivious_bind; [|auto with oblivious].
  destruct (exn_response e) as [[code text]|]; auto with oblivious.
Qed.

Hint Resolve oblivious_send_feishu_message : oblivious.

Lemma oblivious_handle_event (w : world) (tok : pyval) (user_id acc : string)
    (ev : pyval) : oblivious (handle_event w tok user_id acc ev).
Proof.
  unfold handle_event.
  apply oblivious_bind; [auto with oblivious|]. intros event_type.
  repeat apply oblivious_if.
  - apply oblivious_bind; [auto with oblivious|]. intros chunk.
    apply oblivious_bind; [auto with oblivious|]. intros acc'.
    auto 10 with oblivious.
  - apply oblivious_bind; [auto 10 with oblivious|]. intros _.
    apply oblivious_bind; [auto with oblivious|]. intros cid.
    auto 10 with oblivious.
  - apply oblivious_bind; [auto with oblivious|]. intros msg.
    auto 10 with oblivious.
  - auto with oblivious.
Qed.

Hint Resolve oblivious_handle_event : oblivious.

Lemma oblivious_consume (w : world) (tok : pyval) (user_id : string)
    (items : list gen_item) :
  forall acc, oblivious (consume w tok user_id items acc).
Proof.
  induction items as [|[lvl msg|data|ev] rest IH]; intros acc; simpl;
    auto with oblivious.
Qed.

Lemma oblivious_system_error (w : world) (tok : option pyval) (user_id : string)
    (e : exn) : oblivious (system_error w tok user_id e).
Proof.
  unfold system_error.
  apply oblivious_bind; [auto with oblivious|]. intros _.
  apply oblivious_try_except; [|auto with oblivious].
  apply oblivious_bind; [destruct tok|]; auto with oblivious.
Qed.

Lemma oblivious_get_feishu_access_token (w : world) :
  oblivious (get_feishu_access_token w).
Proof. unfold get_feishu_access_token. auto 10 with oblivious. Qed.

Hint Resolve oblivious_consume oblivious_system_error
  oblivious_get_feishu_access_token : oblivious.

(** ** States that differ only in their logs *)

Lemma sim_refl (s : state) : sim s s.
Proof. repeat split. Qed.

Lemma sim_sym (s1 s2 : state) : sim s1 s2 -> sim s2 s1.
Proof. intros (H1 & H2 & H3 & H4). repeat split; congruence. Qed.

Lemma sim_trans (s1 s2 s3 : state) : sim s1 s2 -> sim s2 s3 -> sim s1 s3.
Proof.
  intros (H1 & H2 & H3 & H4) (K1 & K2 & K3 & K4). repeat split; congruence.
Qed.

Lemma sim_after_effects (s : state) (tr : list effect) :
  deliveries tr = [] -> sim (after_effects s tr) s.
Proof.
  intros H. repeat split. simpl. rewrite deliveries_app, H, app_nil_r. reflexivity.
Qed.

Lemma prepend_trace (s : state) :
  s = prepend (trace s)
        (mkState (conversation_store s) [] (posts s) (clock s)).
Proof. destruct s. unfold prepend. simpl. rewrite app_nil_r. reflexivity. Qed.

(** An oblivious computation maps similar states to similar states, with
    the same result. *)
Lemma oblivious_sim {A} (c : M A) (s1 s2 : state) :
  oblivious c -> sim s1 s2 ->
  fst (c s1) = fst (c s2) /\ sim (snd (c s1)) (snd (c s2)).
Proof.
  intros Hc (H1 & H2 & H3 & H4).
  rewrite (prepend_trace s1), (prepend_trace s2), !Hc. simpl.
  rewrite H1, H3, H4. split; [reflexivity|].
  repeat split. simpl. rewrite !deliveries_app, H2. reflexivity.
Qed.

(** The loop sees of a generator only what it yields. *)
Lemma consume_yielded (w : world) (tok : pyval) (user_id : string)
    (items : list gen_item) :
  forall acc s1 s2,
    sim s1 s2 ->
    fst (consume w tok user_id items acc s1)
    = fst (consume w tok user_id (map GYield (yielded items)) acc s2)
    /\ sim (snd (consume w tok user_id items acc s1))
           (snd (consume w tok user_id (map GYield (yielded items)) acc s2)).
Proof.
  induction items as [|[lvl msg|data|ev] rest IH]; intros acc s1 s2 Hs.
  - simpl. auto.
  - simpl. unfold bind at 1, log, emit. apply IH.
    eapply sim_trans; [|exact Hs]. apply (sim_after_effects s1 [Log lvl msg]).
    reflexivity.
  - simpl. unfold bind at 1, emit. apply IH.
    eapply sim_trans; [|exact Hs].
    apply (sim_after_effects s1 [ChatMessagesPost data]). reflexivity.
  - simpl. unfold bind.
    destruct (oblivious_sim (handle_event w tok user_id acc ev) s1 s2
                (oblivious_handle_event w tok user_id acc ev) Hs) as [Hr Hsim].
    destruct (handle_event w tok user_id acc ev s1) as [[a1|e1] t1];
      destruct (handle_event w tok user_id acc ev s2) as [[a2|e2] t2];
      simpl in Hr, Hsim; try discriminate.
    + injection Hr as ->. apply IH. exact Hsim.
    + simpl. auto.
Qed.

(** ** What the program does, step by step *)

Lemma send_feishu_message_run (w : world) (tok : pyval) (rid c : string)
    (st : state) :
  send_feishu_message w tok rid c st
  = (match messages_post w (posts st) with
     | None => Ok tt
     | Some e => Raise e
     end,
     after_post st (send_effects tok rid c (messages_post w (posts st)))).
Proof.
  unfold send_feishu_message, send_effects, after_post, send_failure_logs.
  unfold bind, try_except, post_message, log, emit, ret, raise.
  destruct (startswith "oc_" rid || startswith "ou_" rid); simpl;
    (destruct (messages_post w (posts st)) as [e|]; simpl;
     [destruct (exn_response e) as [[code text]|]; simpl;
      try destruct (is_HTTPError e); simpl|]);
    rewrite <- ?app_assoc; reflexivity.
Qed.

Lemma after_post_after_effects (st : state) (t1 t2 : list effect) :
  after_effects (after_post st t1) t2 = after_post st (t1 ++ t2).
Proof. unfold after_effects, after_post. simpl. rewrite app_assoc. reflexivity. Qed.

(** A Message event: append, and flush at the threshold; the accumulator
    is reset when the flush succeeds and kept when it fails. *)
Lemma handle_message_run (w : world) (tok : pyval) (user_id acc : string)
    (ev : pyval) (frag : string) (st : state) :
  is_Message ev frag ->
  handle_event w tok user_id acc ev st
  = if (50 <=? py_len (acc +:+ frag))%nat then
      (match messages_post w (posts st) with
       | None => Ok ""
       | Some _ => Ok (acc +:+ frag)
       end,
       chunk_flushed w tok user_id (acc +:+ frag) st)
    else (Ok (acc +:+ frag), st).
Proof.
  intros [He Ha]. unfold handle_event, bind, lift.
  rewrite He. simpl. rewrite Ha. simpl.
  destruct (50 <=? py_len (acc +:+ frag))%nat; [|reflexivity].
  unfold try_except, bind. rewrite send_feishu_message_run.
  unfold chunk_flushed.
  destruct (messages_post w (posts st)) as [e|]; simpl.
  - unfold log, emit, ret, bind. simpl.
    rewrite <- after_post_after_effects. reflexivity.
  - unfold ret. rewrite app_nil_r. reflexivity.
Qed.

(** A MessageEnd event: flush what is accumulated, then record the
    conversation identifier; the accumulator is left as it is. *)
Lemma handle_message_end_run (w : world) (tok : pyval) (user_id acc : string)
    (ev cid : pyval) (st : state) :
  is_MessageEnd ev cid ->
  handle_event w tok user_id acc ev st
  = (Ok acc, recorded w user_id cid (final_flushed w tok user_id acc st)).
Proof.
  intros [He Hc]. unfold handle_event, bind, lift.
  rewrite He. simpl. rewrite Hc.
  unfold final_flushed, recorded. simpl.
  destruct (negb (acc =? "")%string).
  - unfold try_except. rewrite send_feishu_message_run.
    destruct (messages_post w (posts st)) as [e|]; simpl;
      destruct (truthy cid);
      unfold log, emit, store_conversation, ret, after_post; simpl;
      rewrite <- ?app_assoc, ?app_nil_r; reflexivity.
  - unfold ret. destruct (truthy cid); reflexivity.
Qed.

Lemma consume_app (w : world) (tok : pyval) (user_id : string)
    (items1 items2 : list gen_item) :
  forall acc st,
    consume w tok user_id (items1 ++ items2) acc st
    = match consume w tok user_id items1 acc st with
      | (Ok acc', st') => consume w tok user_id items2 acc' st'
      | (Raise e, st') => (Raise e, st')
      end.
Proof.
  induction items1 as [|[lvl msg|data|ev] rest IH]; intros acc st; simpl.
  - reflexivity.
  - unfold bind, log, emit. apply IH.
  - unfold bind, emit. apply IH.
  - unfold bind.
    destruct (handle_event w tok user_id acc ev st) as [[acc'|e] st'];
      [apply IH | reflexivity].
Qed.

(** An oblivious computation only adds to the trace. *)
Lemma oblivious_extends {A} (c : M A) (s : state) :
  oblivious c -> exists tr, trace (snd (c s)) = trace s ++ tr.
Proof.
  intros Hc.
  pose proof (Hc (trace s) (mkState (conversation_store s) [] (posts s) (clock s)))
    as H.
  rewrite <- prepend_trace in H. rewrite H. simpl. eauto.
Qed.

Lemma deliveries_chunk_flushed (w : world) (tok : pyval) (user_id text : string)
    (st : state) :
  deliveries (trace (chunk_flushed w tok user_id text st))
  = deliveries (trace st) ++ [flush_of tok user_id text].
Proof.
  unfold chunk_flushed. simpl. rewrite !deliveries_app, deliveries_send_effects.
  destruct (messages_post w (posts st)); reflexivity.
Qed.

Lemma deliveries_final_flushed (w : world) (tok : pyval) (user_id acc : string)
    (st : state) :
  deliveries (trace (final_flushed w tok user_id acc st))
  = deliveries (trace st) ++ (if truthy (VStr acc) then [flush_of tok user_id acc] else []).
Proof.
  unfold final_flushed. destruct (truthy (VStr acc)); simpl.
  - rewrite !deliveries_app, deliveries_send_effects.
    destruct (messages_post w (posts st)); reflexivity.
  - rewrite app_nil_r. reflexivity.
Qed.

Lemma trace_recorded (w : world) (user_id : string) (cid : pyval) (st : state) :
  trace (recorded w user_id cid st) = trace st.
Proof. unfold recorded. destruct (truthy cid); reflexivity. Qed.

Lemma store_final_flushed (w : world) (tok : pyval) (user_id acc : string)
    (st : state) :
  conversation_store (final_flushed w tok user_id acc st) = conversation_store st
  /\ clock (final_flushed w tok user_id acc st) = clock st.
Proof. unfold final_flushed. destruct (truthy (VStr acc)); auto. Qed.

Lemma truthy_str (s : string) : s <> "" -> truthy (VStr s) = true.
Proof.
  intros H. simpl. destruct (String.eqb_spec s ""); [contradiction | reflexivity].
Qed.

(** ** The claims about the Turn Processor *)

(** C2 (as amended). For every Message event whose fragment brings the
    accumulator length to 50 or more, the Turn Processor makes one delivery
    call of the accumulated text; when the call succeeds the accumulator is
    empty before the next stream event is processed, and when the call fails
    the failure is logged and the accumulator keeps the accumulated text. *)
Theorem threshold_flush_resets_on_success (w : world) (tok : pyval)
    (user_id acc : string) (ev : pyval) (frag : string) (st : state) :
  is_Message ev frag ->
  50 <= py_len (acc +:+ frag) ->
  deliveries (trace (snd (handle_event w tok user_id acc ev st)))
  = deliveries (trace st) ++ [flush_of tok user_id (acc +:+ frag)]
  /\ match messages_post w (posts st) with
     | None => fst (handle_event w tok user_id acc ev st) = Ok ""
     | Some e =>
         fst (handle_event w tok user_id acc ev st) = Ok (acc +:+ frag)
         /\ In ("发送消息块错误: " +:+ exn_str e)
              (logged ERROR (trace (snd (handle_event w tok user_id acc ev st))))
     end.
Proof.
  intros Hev Hlen. rewrite (handle_message_run w tok user_id acc ev frag st Hev).
  apply Nat.leb_le in Hlen. rewrite Hlen. simpl fst. simpl snd.
  split; [apply deliveries_chunk_flushed|].
  unfold chunk_flushed.
  destruct (messages_post w (posts st)) as [e|]; [|reflexivity].
  split; [reflexivity|].
  simpl. rewrite !logged_app. apply in_or_app. right.
  apply in_or_app. right. simpl. auto.
Qed.

(** C3. A delivery call that fails during a mid-turn threshold flush is
    logged and swallowed: the loop goes on with the events that follow, and
    a later MessageEnd, reached without an uncaught failure, still flushes
    what is then accumulated and still writes the conversation identifier it
    carries to the store. *)
Theorem failed_flush_does_not_stop_turn (w : world) (tok : pyval)
    (user_id acc : string) (ev : pyval) (frag : string) (e : exn)
    (mid post : list gen_item) (ev_end cid : pyval) (acc' : string)
    (st st' : state) :
  is_Message ev frag ->
  50 <= py_len (acc +:+ frag) ->
  messages_post w (posts st) = Some e ->
  consume w tok user_id (GYield ev :: mid) acc st = (Ok acc', st') ->
  is_MessageEnd ev_end cid ->
  In ("发送消息块错误: " +:+ exn_str e) (logged ERROR (trace st'))
  /\ consume w tok user_id (GYield ev :: mid ++ GYield ev_end :: post) acc st
     = consume w tok user_id post acc'
         (recorded w user_id cid (final_flushed w tok user_id acc' st'))
  /\ (acc' <> "" ->
      deliveries
        (trace (recorded w user_id cid (final_flushed w tok user_id acc' st')))
      = deliveries (trace st') ++ [flush_of tok user_id acc'])
  /\ (truthy cid = true ->
      conversation_store
        (recorded w user_id cid (final_flushed w tok user_id acc' st')) !! user_id
      = Some (mkConversation cid (datetime_now w (clock st')))).
Proof.
  intros Hev Hlen Hfail Hmid Hend.
  split; [|split; [|split]].
  - simpl in Hmid. unfold bind in Hmid.
    rewrite (handle_message_run w tok user_id acc ev frag st Hev) in Hmid.
    apply Nat.leb_le in Hlen. rewrite Hlen, Hfail in Hmid.
    destruct (oblivious_extends
                (consume w tok user_id mid (acc +:+ frag))
                (chunk_flushed w tok user_id (acc +:+ frag) st)
                (oblivious_consume w tok user_id mid (acc +:+ frag))) as [tr Htr].
    rewrite Hmid in Htr. simpl in Htr. rewrite Htr, logged_app.
    apply in_or_app. left. unfold chunk_flushed. rewrite Hfail. simpl.
    rewrite !logged_app. apply in_or_app. right. apply in_or_app. right.
    simpl. auto.
  - change (GYield ev :: mid ++ GYield ev_end :: post)
      with ((GYield ev :: mid) ++ GYield ev_end :: post).
    rewrite consume_app, Hmid. simpl. unfold bind.
    rewrite (handle_message_end_run w tok user_id acc' ev_end cid st' Hend).
    reflexivity.
  - intros Hne. rewrite trace_recorded, deliveries_final_flushed.
    rewrite (truthy_str acc' Hne). reflexivity.
  - intros Hcid. unfold recorded. rewrite Hcid. simpl.
    destruct (store_final_flushed w tok user_id acc' st') as [_ ->].
    apply lookup_insert_eq.
Qed.

(** ** Token acquisition and the outer handler *)

Lemma get_feishu_access_token_run (w : world) (st : state) :
  get_feishu_access_token w st
  = match token_exchange w with
    | Ok token_data =>
        match method_get token_data "tenant_access_token" VNone with
        | Ok tok => (Ok tok, after_effects st [TokenPost])
        | Raise e =>
            (Raise e,
             after_effects st
               [TokenPost; Log ERROR ("获取飞书访问令牌错误: " +:+ exn_str e)])
        end
    | Raise e =>
        (Raise e,
         after_effects st
           [TokenPost; Log ERROR ("获取飞书访问令牌错误: " +:+ exn_str e)])
    end.
Proof.
  unfold get_feishu_access_token, try_except, bind, lift, emit, log, emit,
    raise, after_effects.
  destruct (token_exchange w) as [token_data|e]; simpl.
  - destruct (method_get token_data "tenant_access_token" VNone); simpl;
      rewrite <- ?app_assoc; reflexivity.
  - rewrite <- app_assoc. reflexivity.
Qed.

Lemma get_feishu_access_token_sim (w : world) (st : state) :
  sim (snd (get_feishu_access_token w st)) st.
Proof.
  rewrite get_feishu_access_token_run.
  destruct (token_exchange w) as [token_data|e];
    [destruct (method_get token_data "tenant_access_token" VNone)|];
    simpl; apply sim_after_effects; reflexivity.
Qed.

(** The handler when the token was never bound: the attempt to send raises
    before any request is made. *)
Lemma system_error_unbound (w : world) (user_id : string) (e : exn) (st : state) :
  system_error w None user_id e st
  = (Ok tt,
     after_effects st
       [Log ERROR ("处理AI响应过程中发生错误: " +:+ exn_str e);
        Log ERROR ("发送系统错误消息失败: " +:+ exn_str (unbound_local "access_token"))]).
Proof.
  unfold system_error, bind, try_except, log, emit, raise, after_effects. simpl.
  rewrite <- app_assoc. reflexivity.
Qed.

(** The handler when the token is bound: one delivery call, whose failure
    is logged. *)
Lemma system_error_bound (w : world) (tok : pyval) (user_id : string) (e : exn)
    (st : state) :
  system_error w (Some tok) user_id e st
  = (Ok tt,
     after_post st
       ([Log ERROR ("处理AI响应过程中发生错误: " +:+ exn_str e)]
        ++ send_effects tok user_id ("系统错误: " +:+ exn_str e)
             (messages_post w (posts st))
        ++ match messages_post w (posts st) with
           | Some send_error =>
               [Log ERROR ("发送系统错误消息失败: " +:+ exn_str send_error)]
           | None => []
           end)).
Proof.
  unfold system_error, bind, try_except, log, emit, ret. simpl.
  rewrite send_feishu_message_run. simpl.
  destruct (messages_post w (posts st)) as [e'|]; unfold after_post; simpl;
    rewrite <- ?app_assoc, ?app_nil_r; reflexivity.
Qed.

Lemma process_ai_response_returns (w : world) (message : pyval)
    (user_id : string) (conversation_id : pyval) (st : state) :
  fst (process_ai_response w message user_id conversation_id st) = Ok tt.
Proof.
  unfold process_ai_response.
  destruct (get_feishu_access_token w st) as [[tok|e] st1].
  - destruct (consume w tok user_id
                (call_dify_api w message user_id conversation_id) "" st1)
      as [[acc|e] st2]; [reflexivity|].
    rewrite system_error_bound. reflexivity.
  - rewrite system_error_unbound. reflexivity.
Qed.

(** C10. If token acquisition fails, the turn delivers no outbound message
    at all: the attempt to send the system error notification raises
    because [access_token] was never bound, and that is only logged; the
    Conversation Store is left unchanged and [process_ai_response] returns
    normally. *)
Theorem token_failure_delivers_nothing (w : world) (message : pyval)
    (user_id : string) (conversation_id : pyval) (e : exn) (st st1 : state) :
  get_feishu_access_token w st = (Raise e, st1) ->
  process_ai_response w message user_id conversation_id st
  = (Ok tt,
     after_effects st
       [TokenPost;
        Log ERROR ("获取飞书访问令牌错误: " +:+ exn_str e);
        Log ERROR ("处理AI响应过程中发生错误: " +:+ exn_str e);
        Log ERROR ("发送系统错误消息失败: " +:+ exn_str (unbound_local "access_token"))])
  /\ deliveries (trace (snd (process_ai_response w message user_id conversation_id st)))
     = deliveries (trace st)
  /\ conversation_store (snd (process_ai_response w message user_id conversation_id st))
     = conversation_store st.
Proof.
  intros Htok.
  assert (Hrun : process_ai_response w message user_id conversation_id st
                 = (Ok tt,
                    after_effects st
                      [TokenPost;
                       Log ERROR ("获取飞书访问令牌错误: " +:+ exn_str e);
                       Log ERROR ("处理AI响应过程中发生错误: " +:+ exn_str e);
                       Log ERROR ("发送系统错误消息失败: "
                                    +:+ exn_str (unbound_local "access_token"))])).
  { unfold process_ai_response. rewrite Htok, system_error_unbound.
    rewrite get_feishu_access_token_run in Htok.
    destruct (token_exchange w) as [token_data|e0];
      [destruct (method_get token_data "tenant_access_token" VNone)|];
      inversion Htok; subst; unfold after_effects; simpl;
      rewrite <- app_assoc; reflexivity. }
  rewrite Hrun. simpl. split; [reflexivity|]. split; [|reflexivity].
  rewrite deliveries_app. simpl. apply app_nil_r.
Qed.

(** C7. [process_ai_response] never propagates an exception, whatever its
    inputs and whatever the collaborators do.  When the loop over the AI
    stream fails, one delivery call of the system error message is made to
    the turn's identity and its failure is only logged; when token
    acquisition fails, the attempt to send that message fails on the unbound
    token and is only logged. *)
Theorem process_ai_response_never_raises (w : world) (message : pyval)
    (user_id : string) (conversation_id : pyval) (st : state) :
  fst (process_ai_response w message user_id conversation_id st) = Ok tt
  /\ match get_feishu_access_token w st with
     | (Raise e, st1) =>
         snd (process_ai_response w message user_id conversation_id st)
         = after_effects st1
             [Log ERROR ("处理AI响应过程中发生错误: " +:+ exn_str e);
              Log ERROR ("发送系统错误消息失败: "
                           +:+ exn_str (unbound_local "access_token"))]
     | (Ok tok, st1) =>
         match consume w tok user_id
                 (call_dify_api w message user_id conversation_id) "" st1 with
         | (Ok _, st2) =>
             snd (process_ai_response w message user_id conversation_id st) = st2
         | (Raise e, st2) =>
             deliveries
               (trace (snd (process_ai_response w message user_id conversation_id st)))
             = deliveries (trace st2)
               ++ [flush_of tok user_id ("系统错误: " +:+ exn_str e)]
             /\ logged ERROR
                  (trace (snd (process_ai_response w message user_id conversation_id st)))
                = logged ERROR (trace st2)
                  ++ ["处理AI响应过程中发生错误: " +:+ exn_str e]
                  ++ logged ERROR
                       (send_effects tok user_id ("系统错误: " +:+ exn_str e)
                          (messages_post w (posts st2)))
                  ++ match messages_post w (posts st2) with
                     | Some send_error =>
                         ["发送系统错误消息失败: " +:+ exn_str send_error]
                     | None => []
                     end
         end
     end.
Proof.
  split; [apply process_ai_response_returns|].
  unfold process_ai_response.
  destruct (get_feishu_access_token w st) as [[tok|e] st1].
  - destruct (consume w tok user_id
                (call_dify_api w message user_id conversation_id) "" st1)
      as [[acc|e] st2].
    + auto.
    + rewrite system_error_bound. cbn [fst snd].
      unfold after_post. cbn [trace]. split.
      * rewrite !deliveries_app, deliveries_send_effects.
        destruct (messages_post w (posts st2)); reflexivity.
      * rewrite !logged_app.
        destruct (messages_post w (posts st2)); reflexivity.
  - rewrite system_error_unbound. auto.
Qed.

(** ** Whole turns *)

Lemma str_app_nil_r (s : string) : s +:+ "" = s.
Proof.
  induction s as [|a s IH]; [reflexivity|].
  change (String a (s +:+ "") = String a s). rewrite IH. reflexivity.
Qed.

Lemma str_app_assoc (s t u : string) : (s +:+ t) +:+ u = s +:+ (t +:+ u).
Proof.
  induction s as [|a s IH]; [reflexivity|].
  change (String a ((s +:+ t) +:+ u) = String a (s +:+ (t +:+ u))).
  rewrite IH. reflexivity.
Qed.

Lemma pair_eq {A B} (p : A * B) (a : A) : fst p = a -> p = (a, snd p).
Proof. destruct p. simpl. intros ->. reflexivity. Qed.

(** A turn whose token acquisition and loop both return. *)
Lemma process_ai_response_ok (w : world) (message : pyval) (user_id : string)
    (conversation_id tok : pyval) (acc : string) (st st1 st2 : state) :
  get_feishu_access_token w st = (Ok tok, st1) ->
  consume w tok user_id (call_dify_api w message user_id conversation_id) "" st1
  = (Ok acc, st2) ->
  process_ai_response w message user_id conversation_id st = (Ok tt, st2).
Proof. intros H1 H2. unfold process_ai_response. rewrite H1, H2. reflexivity. Qed.

Lemma token_state_sim (w : world) (tok : pyval) (st st1 : state) :
  get_feishu_access_token w st = (Ok tok, st1) -> sim st1 st.
Proof.
  intros H. pose proof (get_feishu_access_token_sim w st) as Hs.
  rewrite H in Hs. exact Hs.
Qed.

(** Items that yield nothing leave the accumulator alone and deliver
    nothing. *)
Lemma consume_no_yield (w : world) (tok : pyval) (user_id : string)
    (items : list gen_item) (acc : string) (st : state) :
  yielded items = [] ->
  fst (consume w tok user_id items acc st) = Ok acc
  /\ sim (snd (consume w tok user_id items acc st)) st.
Proof.
  intros Hy.
  destruct (consume_yielded w tok user_id items acc st st (sim_refl st)) as [H1 H2].
  rewrite Hy in H1, H2. exact (conj H1 H2).
Qed.

(** A MessageEnd followed by items that yield nothing. *)
Lemma consume_end_tail (w : world) (tok : pyval) (user_id : string)
    (ev_end cid : pyval) (post : list gen_item) (acc : string) (st : state) :
  is_MessageEnd ev_end cid ->
  yielded post = [] ->
  fst (consume w tok user_id (GYield ev_end :: post) acc st) = Ok acc
  /\ sim (snd (consume w tok user_id (GYield ev_end :: post) acc st))
         (recorded w user_id cid (final_flushed w tok user_id acc st)).
Proof.
  intros Hend Hy. simpl. unfold bind.
  rewrite (handle_message_end_run w tok user_id acc ev_end cid st Hend).
  apply consume_no_yield. exact Hy.
Qed.

(** Message events that keep the accumulator under the threshold are only
    accumulated. *)
Lemma consume_messages_below (w : world) (tok : pyval) (user_id : string)
    (evs : list pyval) (frags : list string) :
  Forall2 is_Message evs frags ->
  forall acc st,
    (forall n, py_len (acc +:+ concat_str (firstn n frags)) < 50) ->
    consume w tok user_id (map GYield evs) acc st
    = (Ok (acc +:+ concat_str frags), st).
Proof.
  induction 1 as [|ev frag evs frags Hev Hrest IH]; intros acc st Hlen.
  - simpl. rewrite str_app_nil_r. reflexivity.
  - simpl. unfold bind.
    rewrite (handle_message_run w tok user_id acc ev frag st Hev).
    pose proof (Hlen 1) as H1. simpl in H1. rewrite str_app_nil_r in H1.
    apply Nat.leb_gt in H1. rewrite H1.
    rewrite IH.
    + rewrite str_app_assoc. reflexivity.
    + intros n. specialize (Hlen (S n)). simpl in Hlen.
      rewrite str_app_assoc. exact Hlen.
Qed.

(** C8. When every Message fragment keeps the accumulator strictly under 50
    characters and the MessageEnd finds it non-empty, nothing is delivered
    before the MessageEnd is handled and the whole turn makes exactly one
    delivery call, whose text is the concatenation of the fragments in
    arrival order. *)
Theorem short_fragments_flush_once_at_end (w : world) (message : pyval)
    (user_id : string) (conversation_id tok : pyval) (st st1 : state)
    (pre post : list gen_item) (ev_end cid : pyval) (frags : list string) :
  get_feishu_access_token w st = (Ok tok, st1) ->
  call_dify_api w message user_id conversation_id = pre ++ GYield ev_end :: post ->
  Forall2 is_Message (yielded pre) frags ->
  is_MessageEnd ev_end cid ->
  yielded post = [] ->
  (forall n, py_len (concat_str (firstn n frags)) < 50) ->
  concat_str frags <> "" ->
  (exists s,
      consume w tok user_id pre "" st1 = (Ok (concat_str frags), s)
      /\ deliveries (trace s) = deliveries (trace st))
  /\ fst (process_ai_response w message user_id conversation_id st) = Ok tt
  /\ deliveries (trace (snd (process_ai_response w message user_id conversation_id st)))
     = deliveries (trace st) ++ [flush_of tok user_id (concat_str frags)].
Proof.
  intros Htok Hcall Hpre Hend Hpost Hlen Hne.
  pose proof (token_state_sim w tok st st1 Htok) as (_ & Hd1 & _ & _).
  destruct (consume_yielded w tok user_id pre "" st1 st1 (sim_refl st1))
    as [Hr Hs].
  rewrite (consume_messages_below w tok user_id (yielded pre) frags Hpre "" st1 Hlen)
    in Hr, Hs.
  simpl in Hr, Hs. apply pair_eq in Hr.
  destruct Hs as (_ & Hd2 & _ & _).
  set (s := snd (consume w tok user_id pre "" st1)) in *.
  assert (Hbefore : deliveries (trace s) = deliveries (trace st)) by congruence.
  split; [exists s; auto|].
  destruct (consume_end_tail w tok user_id ev_end cid post (concat_str frags) s
              Hend Hpost) as [Hr2 Hs2].
  apply pair_eq in Hr2.
  assert (Hloop : consume w tok user_id
                    (call_dify_api w message user_id conversation_id) "" st1
                  = (Ok (concat_str frags),
                     snd (consume w tok user_id (GYield ev_end :: post)
                            (concat_str frags) s))).
  { rewrite Hcall, consume_app, Hr. exact Hr2. }
  rewrite (process_ai_response_ok _ _ _ _ _ _ _ _ _ Htok Hloop). cbn [fst snd].
  split; [reflexivity|].
  destruct Hs2 as (_ & Hd3 & _ & _). rewrite Hd3.
  rewrite trace_recorded, deliveries_final_flushed, (truthy_str _ Hne), Hbefore.
  reflexivity.
Qed.

(** C1. For the fragments ["Hi "], ["there, "] and ["how can I help you
    today with your inquiry"] followed by MessageEnd, with every delivery
    call succeeding, the accumulator is flushed once, before the MessageEnd
    is handled, with the concatenation of the three fragments, and the
    MessageEnd flushes nothing more. *)
Theorem three_fragments_flush_once (w : world) (message : pyval)
    (user_id : string) (conversation_id tok : pyval) (st st1 : state)
    (pre post : list gen_item) (ev1 ev2 ev3 ev_end cid : pyval) :
  get_feishu_access_token w st = (Ok tok, st1) ->
  call_dify_api w message user_id conversation_id = pre ++ GYield ev_end :: post ->
  yielded pre = [ev1; ev2; ev3] ->
  yielded post = [] ->
  is_Message ev1 "Hi " ->
  is_Message ev2 "there, " ->
  is_Message ev3 "how can I help you today with your inquiry" ->
  is_MessageEnd ev_end cid ->
  (forall n, messages_post w n = None) ->
  (exists s,
      consume w tok user_id pre "" st1 = (Ok "", s)
      /\ deliveries (trace s)
         = deliveries (trace st)
           ++ [flush_of tok user_id
                 (concat_str
                    ["Hi "; "there, "; "how can I help you today with your inquiry"])])
  /\ fst (process_ai_response w message user_id conversation_id st) = Ok tt
  /\ deliveries (trace (snd (process_ai_response w message user_id conversation_id st)))
     = deliveries (trace st)
       ++ [flush_of tok user_id
             (concat_str
                ["Hi "; "there, "; "how can I help you today with your inquiry"])].
Proof.
  intros Htok Hcall Hpre Hpost H1 H2 H3 Hend Hsend.
  pose proof (token_state_sim w tok st st1 Htok) as (_ & Hd1 & _ & _).
  destruct (consume_yielded w tok user_id pre "" st1 st1 (sim_refl st1))
    as [Hr Hs].
  rewrite Hpre in Hr, Hs.
  assert (Hrun : consume w tok user_id (map GYield [ev1; ev2; ev3]) "" st1
                 = (Ok "",
                    chunk_flushed w tok user_id
                      (concat_str
                         ["Hi "; "there, ";
                          "how can I help you today with your inquiry"]) st1)).
  { simpl. unfold bind.
    rewrite (handle_message_run w tok user_id _ ev1 _ st1 H1).
    change (50 <=? py_len ("" +:+ "Hi "))%nat with false. cbv iota.
    rewrite (handle_message_run w tok user_id _ ev2 _ st1 H2).
    change (50 <=? py_len (("" +:+ "Hi ") +:+ "there, "))%nat with false. cbv iota.
    rewrite (handle_message_run w tok user_id _ ev3 _ st1 H3).
    change (50 <=? py_len
              ((("" +:+ "Hi ") +:+ "there, ")
               +:+ "how can I help you today with your inquiry"))%nat with true.
    cbv iota. rewrite Hsend. reflexivity. }
  rewrite Hrun in Hr, Hs. simpl in Hr. apply pair_eq in Hr.
  destruct Hs as (_ & Hd2 & _ & _). cbn [snd] in Hd2.
  rewrite deliveries_chunk_flushed, Hd1 in Hd2.
  set (s := snd (consume w tok user_id pre "" st1)) in *.
  split; [exists s; auto|].
  destruct (consume_end_tail w tok user_id ev_end cid post "" s Hend Hpost)
    as [Hr2 Hs2].
  apply pair_eq in Hr2.
  assert (Hloop : consume w tok user_id
                    (call_dify_api w message user_id conversation_id) "" st1
                  = (Ok "",
                     snd (consume w tok user_id (GYield ev_end :: post) "" s))).
  { rewrite Hcall, consume_app, Hr. exact Hr2. }
  rewrite (process_ai_response_ok _ _ _ _ _ _ _ _ _ Htok Hloop). cbn [fst snd].
  split; [reflexivity|].
  destruct Hs2 as (_ & Hd3 & _ & _). rewrite Hd3.
  rewrite trace_recorded, deliveries_final_flushed. simpl truthy. cbv iota.
  rewrite app_nil_r. exact Hd2.
Qed.

(** ** Writes to the Conversation Store *)

Lemma keeps_ret {A} (a : A) : keeps_store (ret a).
Proof. intros st. reflexivity. Qed.

Lemma keeps_raise {A} (e : exn) : keeps_store (@raise A e).
Proof. intros st. reflexivity. Qed.

Lemma keeps_lift {A} (r : result A) : keeps_store (lift r).
Proof. intros st. reflexivity. Qed.

Lemma keeps_emit (e : effect) : keeps_store (emit e).
Proof. intros st. reflexivity. Qed.

Lemma keeps_log (lvl : level) (msg : string) : keeps_store (log lvl msg).
Proof. intros st. reflexivity. Qed.

Lemma keeps_bind {A B} (c : M A) (k : A -> M B) :
  keeps_store c -> (forall a, keeps_store (k a)) -> keeps_store (bind c k).
Proof.
  intros Hc Hk st. unfold bind. specialize (Hc st).
  destruct (c st) as [[a|e] st']; simpl in *; [rewrite Hk|]; exact Hc.
Qed.

Lemma keeps_bind_lift {A B} (r : result A) (k : A -> M B) :
  (forall a, r = Ok a -> keeps_store (k a)) -> keeps_store (bind (lift r) k).
Proof.
  intros Hk st. unfold bind, lift. destruct r as [a|e]; [|reflexivity].
  apply Hk. reflexivity.
Qed.

Lemma keeps_try_except {A} (c : M A) (h : exn -> M A) :
  keeps_store c -> (forall e, keeps_store (h e)) -> keeps_store (try_except c h).
Proof.
  intros Hc Hh st. unfold try_except. specialize (Hc st).
  destruct (c st) as [[a|e] st']; simpl in *; [|rewrite Hh]; exact Hc.
Qed.

Lemma keeps_if {A} (b : bool) (c1 c2 : M A) :
  keeps_store c1 -> keeps_store c2 -> keeps_store (if b then c1 else c2).
Proof. destruct b; auto. Qed.

Lemma keeps_send_feishu_message (w : world) (tok : pyval) (rid c : string) :
  keeps_store (send_feishu_message w tok rid c).
Proof. intros st. rewrite send_feishu_message_run. reflexivity. Qed.

Create HintDb keeps.
Hint Resolve keeps_ret keeps_raise keeps_lift keeps_emit keeps_log keeps_bind
  keeps_try_except keeps_if keeps_send_feishu_message : keeps.

Lemma py_eq_str_true (v : pyval) (s : string) : py_eq_str v s = true -> v = VStr s.
Proof.
  destruct v; simpl; try discriminate. intros H.
  apply String.eqb_eq in H. congruence.
Qed.

(** Only a MessageEnd that carries an identifier writes to the store. *)
Lemma keeps_handle_event (w : world) (tok : pyval) (user_id acc : string)
    (ev : pyval) :
  writes_nothing ev -> keeps_store (handle_event w tok user_id acc ev).
Proof.
  intros Hev. unfold handle_event.
  apply keeps_bind_lift. intros event_type He.
  destruct (py_eq_str event_type "message") eqn:Hm.
  - apply keeps_bind; [auto with keeps|]. intros chunk.
    apply keeps_bind; [auto with keeps|]. intros acc'.
    auto 10 with keeps.
  - destruct (py_eq_str event_type "message_end") eqn:Hme.
    + apply py_eq_str_true in Hme. subst event_type.
      apply keeps_bind; [auto 10 with keeps|]. intros _.
      apply keeps_bind_lift. intros cid Hc.
      rewrite (Hev cid (conj He Hc)). auto with keeps.
    + apply keeps_if; [|auto with keeps].
      apply keeps_bind; [auto with keeps|]. intros msg.
      auto 10 with keeps.
Qed.

Lemma keeps_consume_events (w : world) (tok : pyval) (user_id : string)
    (evs : list pyval) :
  Forall writes_nothing evs ->
  forall acc, keeps_store (consume w tok user_id (map GYield evs) acc).
Proof.
  induction 1 as [|ev evs Hev Hrest IH]; intros acc; simpl.
  - apply keeps_ret.
  - apply keeps_bind; [apply keeps_handle_event; exact Hev | exact IH].
Qed.

Lemma consume_keeps_store (w : world) (tok : pyval) (user_id : string)
    (items : list gen_item) (acc : string) (st : state) :
  Forall writes_nothing (yielded items) ->
  conversation_store (snd (consume w tok user_id items acc st))
  = conversation_store st.
Proof.
  intros H.
  destruct (consume_yielded w tok user_id items acc st st (sim_refl st))
    as (_ & Hs & _).
  rewrite Hs. apply keeps_consume_events. exact H.
Qed.

(** C4. Every MessageEnd that carries a non-empty conversation identifier
    replaces the store entry of the turn's identity with that identifier and
    the time of the write; when the turn reaches such a MessageEnd and no
    later event writes again, that record is the one the store holds for the
    identity after the turn. *)
Theorem message_end_records_conversation (w : world) (message : pyval)
    (user_id : string) (conversation_id tok : pyval) (st st1 : state)
    (pre post : list gen_item) (ev_end cid : pyval) (acc : string) (s : state) :
  get_feishu_access_token w st = (Ok tok, st1) ->
  call_dify_api w message user_id conversation_id = pre ++ GYield ev_end :: post ->
  consume w tok user_id pre "" st1 = (Ok acc, s) ->
  is_MessageEnd ev_end cid ->
  truthy cid = true ->
  Forall writes_nothing (yielded post) ->
  (forall acc0 st0,
      conversation_store (snd (handle_event w tok user_id acc0 ev_end st0))
      = <[user_id := mkConversation cid (datetime_now w (clock st0))]>
          (conversation_store st0))
  /\ fst (process_ai_response w message user_id conversation_id st) = Ok tt
  /\ conversation_store
       (snd (process_ai_response w message user_id conversation_id st)) !! user_id
     = Some (mkConversation cid (datetime_now w (clock s))).
Proof.
  intros Htok Hcall Hpre Hend Hcid Hpost.
  assert (Hstep : forall acc0 st0,
             conversation_store (snd (handle_event w tok user_id acc0 ev_end st0))
             = <[user_id := mkConversation cid (datetime_now w (clock st0))]>
                 (conversation_store st0)).
  { intros acc0 st0.
    rewrite (handle_message_end_run w tok user_id acc0 ev_end cid st0 Hend).
    unfold recorded. rewrite Hcid. simpl.
    destruct (store_final_flushed w tok user_id acc0 st0) as [-> ->].
    reflexivity. }
  split; [exact Hstep|].
  split; [apply process_ai_response_returns|].
  unfold process_ai_response. rewrite Htok, Hcall, consume_app, Hpre.
  simpl consume. unfold bind.
  pose proof (Hstep acc s) as Hstore.
  rewrite (handle_message_end_run w tok user_id acc ev_end cid s Hend) in Hstore |- *.
  cbn [snd] in Hstore.
  pose proof (consume_keeps_store w tok user_id post acc
                (recorded w user_id cid (final_flushed w tok user_id acc s)) Hpost)
    as Hkeep.
  destruct (consume w tok user_id post acc
              (recorded w user_id cid (final_flushed w tok user_id acc s)))
    as [[acc2|e] s3]; cbn [snd] in Hkeep |- *.
  - rewrite Hkeep, Hstore. apply lookup_insert_eq.
  - rewrite system_error_bound. cbn [snd after_post conversation_store].
    rewrite Hkeep, Hstore. apply lookup_insert_eq.
Qed.

(** ** Malformed stream lines *)

Lemma aiter_lines_malformed (bad : string) (rest : line_stream) (e : exn) :
  startswith "data: " bad = true ->
  json_loads (str_drop 6 bad) = Raise e ->
  is_JSONDecodeError e = true ->
  aiter_lines (SLine bad rest)
  = GLog ERROR ("JSON解析错误: " +:+ exn_str e) :: aiter_lines rest.
Proof. intros H1 H2 H3. simpl. rewrite H1, H2, H3. reflexivity. Qed.

Lemma yielded_lines_then (pre : list string) (s1 s2 : line_stream) :
  yielded (aiter_lines s1) = yielded (aiter_lines s2) ->
  yielded (aiter_lines (lines_then pre s1))
  = yielded (aiter_lines (lines_then pre s2)).
Proof.
  intros H. induction pre as [|line pre IH]; [exact H|].
  simpl. destruct (startswith "data: " line); [|exact IH].
  destruct (json_loads (str_drop 6 line)) as [event_data|e].
  - destruct (py_in "error" event_data) as [[|]|e]; [|simpl; rewrite IH|]; try reflexivity.
    destruct (py_getitem event_data "error"); [simpl; rewrite IH|]; reflexivity.
  - destruct (is_JSONDecodeError e); [exact IH | reflexivity].
Qed.

(** The loop and the handlers read of the world only the outcomes of the
    message posts and the clock. *)
Lemma consume_with_chat_messages (w : world) (s : line_stream) (tok : pyval)
    (user_id : string) (items : list gen_item) :
  forall acc st,
    consume (with_chat_messages w s) tok user_id items acc st
    = consume w tok user_id items acc st.
Proof.
  induction items as [|[lvl msg|data|ev] rest IH]; intros acc st; simpl.
  - reflexivity.
  - unfold bind, log, emit. apply IH.
  - unfold bind, emit. apply IH.
  - unfold bind.
    change (handle_event (with_chat_messages w s) tok user_id acc ev st)
      with (handle_event w tok user_id acc ev st).
    destruct (handle_event w tok user_id acc ev st) as [[acc'|e] st'];
      [apply IH | reflexivity].
Qed.

(** Two generators that yield the same values make the same turn, up to
    what is logged. *)
Lemma process_ai_response_yielded (w : world) (s1 s2 : line_stream)
    (message : pyval) (user_id : string) (conversation_id : pyval) (st : state) :
  yielded (aiter_lines s1) = yielded (aiter_lines s2) ->
  fst (process_ai_response (with_chat_messages w s1) message user_id
         conversation_id st)
  = fst (process_ai_response (with_chat_messages w s2) message user_id
           conversation_id st)
  /\ sim (snd (process_ai_response (with_chat_messages w s1) message user_id
                 conversation_id st))
         (snd (process_ai_response (with_chat_messages w s2) message user_id
                 conversation_id st)).
Proof.
  intros Hy. unfold process_ai_response.
  change (get_feishu_access_token (with_chat_messages w s1) st)
    with (get_feishu_access_token w st).
  change (get_feishu_access_token (with_chat_messages w s2) st)
    with (get_feishu_access_token w st).
  destruct (get_feishu_access_token w st) as [[tok|e] st1].
  - rewrite !consume_with_chat_messages.
    set (i1 := call_dify_api (with_chat_messages w s1) message user_id conversation_id).
    set (i2 := call_dify_api (with_chat_messages w s2) message user_id conversation_id).
    assert (Hi : yielded i1 = yielded i2) by (unfold i1, i2; simpl; exact Hy).
    destruct (consume_yielded w tok user_id i1 "" st1 st1 (sim_refl st1)) as [Ha1 Ha2].
    destruct (consume_yielded w tok user_id i2 "" st1 st1 (sim_refl st1)) as [Hb1 Hb2].
    rewrite Hi in Ha1, Ha2. rewrite <- Hb1 in Ha1.
    pose proof (sim_trans _ _ _ Ha2 (sim_sym _ _ Hb2)) as Hs.
    destruct (consume w tok user_id i1 "" st1) as [[a1|e1] t1];
      destruct (consume w tok user_id i2 "" st1) as [[a2|e2] t2];
      simpl in Ha1, Hs; try discriminate.
    + auto.
    + injection Ha1 as ->.
      change (system_error (with_chat_messages w s1) (Some tok) user_id e2 t1)
        with (system_error w (Some tok) user_id e2 t1).
      change (system_error (with_chat_messages w s2) (Some tok) user_id e2 t2)
        with (system_error w (Some tok) user_id e2 t2).
      apply oblivious_sim; [apply oblivious_system_error | exact Hs].
  - split; [reflexivity | apply sim_refl].
Qed.

(** C6. A stream line whose payload after ["data: "] is not valid JSON
    yields no event, and so no Error event: the generator yields what it
    yields without the line, and the turn makes the same deliveries with the
    same texts and leaves the same store as if the line were absent. *)
Theorem malformed_line_is_skipped (w : world) (message : pyval)
    (user_id : string) (conversation_id : pyval) (st : state)
    (pre : list string) (bad : string) (post : line_stream) (e : exn) :
  startswith "data: " bad = true ->
  json_loads (str_drop 6 bad) = Raise e ->
  is_JSONDecodeError e = true ->
  yielded (aiter_lines (SLine bad post)) = yielded (aiter_lines post)
  /\ yielded (aiter_lines (lines_then pre (SLine bad post)))
     = yielded (aiter_lines (lines_then pre post))
  /\ fst (process_ai_response
            (with_chat_messages w (lines_then pre (SLine bad post)))
            message user_id conversation_id st)
     = fst (process_ai_response
              (with_chat_messages w (lines_then pre post))
              message user_id conversation_id st)
  /\ deliveries
       (trace (snd (process_ai_response
                      (with_chat_messages w (lines_then pre (SLine bad post)))
                      message user_id conversation_id st)))
     = deliveries
         (trace (snd (process_ai_response
                        (with_chat_messages w (lines_then pre post))
                        message user_id conversation_id st)))
  /\ conversation_store
       (snd (process_ai_response
               (with_chat_messages w (lines_then pre (SLine bad post)))
               message user_id conversation_id st))
     = conversation_store
         (snd (process_ai_response
                 (with_chat_messages w (lines_then pre post))
                 message user_id conversation_id st)).
Proof.
  intros H1 H2 H3.
  assert (Hone : yielded (aiter_lines (SLine bad post)) = yielded (aiter_lines post)).
  { rewrite (aiter_lines_malformed bad post e H1 H2 H3). reflexivity. }
  pose proof (yielded_lines_then pre _ _ Hone) as Hall.
  destruct (process_ai_response_yielded w _ _ message user_id conversation_id st Hall)
    as (Hr & Hstore & Hdel & _).
  auto.
Qed.

(** ** The webhook *)

(** C9. A payload with a [challenge] field is answered with the dict of
    that challenge and of code 0 and with nothing else: the state, its trace
    and store included, is left as it was, so that no token is acquired, no
    AI call or chat delivery is made, no task is created and the store is
    neither read nor written. *)
Theorem challenge_is_echoed (body : string) (d : list (string * pyval))
    (challenge : pyval) (st : state) :
  utf8_valid body = true ->
  json_loads body = Ok (VDict d) ->
  dict_lookup "challenge" d = Some challenge ->
  feishu_webhook (Ok body) st
  = (Ok (mkResponse
           (json_dumps true (VDict [("challenge", challenge); ("code", VInt 0)]))
           "application/json"),
     st).
Proof.
  intros Hutf Hjson Hc.
  unfold feishu_webhook, try_except, bind, lift, decode_utf8.
  rewrite Hutf, Hjson. simpl. rewrite Hc. reflexivity.
Qed.

(** C5. Whatever the request body is, [feishu_webhook] returns a response
    and raises nothing; the response is the success acknowledgement, unless
    the body is a payload with a [challenge] field, which gets the challenge
    echo. *)
Theorem webhook_always_acknowledges (request_body : result string) (st : state) :
  exists resp st',
    feishu_webhook request_body st = (Ok resp, st')
    /\ (resp = mkResponse (json_dumps true (VDict [("code", VInt 0); ("msg", VStr "success")]))
                 "application/json"
        \/ exists body data challenge,
             request_body = Ok body
             /\ json_loads body = Ok data
             /\ py_in "challenge" data = Ok true
             /\ py_getitem data "challenge" = Ok challenge
             /\ resp = mkResponse (json_dumps true (challenge_payload challenge))
                         "application/json").
Proof.
  unfold feishu_webhook, try_except, bind, lift, decode_utf8, log, emit, ret.
  destruct request_body as [body|e]; [|eauto].
  destruct (utf8_valid body); [|eauto].
  destruct (json_loads body) as [data|e] eqn:Hjson; [|eauto].
  destruct (py_in "challenge" data) as [[|]|e] eqn:Hin; [| |eauto].
  - destruct (py_getitem data "challenge") as [challenge|e] eqn:Hget; [|eauto].
    do 2 eexists. split; [reflexivity|]. right. eauto 10.
  - destruct (py_in "event" data) as [[|]|e]; [| |eauto].
    + destruct (handle_message_event data st) as [[u|e] st']; eauto.
    + eauto.
Qed.

(** ** Further properties: the stream reader *)

(** X1. Lines that do not start with ["data: "] (blank lines, comments,
    other fields of the event stream) are dropped without a trace: the
    generator does exactly what it does on the stream without them. *)
Theorem lines_without_prefix_are_dropped (ls : list string) (rest : line_stream) :
  aiter_lines (lines_then ls rest)
  = aiter_lines (lines_then (filter (fun l => startswith "data: " l = true) ls) rest).
Proof.
  induction ls as [|line ls IH]; [reflexivity|].
  rewrite filter_cons. simpl lines_then.
  destruct (decide (startswith "data: " line = true)) as [Hp|Hp].
  - simpl. rewrite Hp, IH. reflexivity.
  - simpl. apply not_true_is_false in Hp. rewrite Hp. exact IH.
Qed.

(** X2. A stream that breaks (the request fails, or the connection drops
    after some lines) always makes the generator yield an error event as
    its last value. *)
Theorem broken_stream_ends_with_error (ls : list string) (e : exn) :
  exists evs message,
    yielded (aiter_lines (lines_then ls (SRaise e)))
    = evs ++ [error_event message].
Proof.
  induction ls as [|line ls (evs & message & IH)].
  - exists [], (exn_str e). reflexivity.
  - simpl. destruct (startswith "data: " line); [|eauto].
    destruct (json_loads (str_drop 6 line)) as [event_data|e1].
    + destruct (py_in "error" event_data) as [[|]|e2].
      * destruct (py_getitem event_data "error") as [err|e3].
        -- simpl. rewrite IH.
           exists (error_event ("MCP API错误: " +:+ py_str err) :: evs), message.
           reflexivity.
        -- exists [], (exn_str e3). reflexivity.
      * simpl. rewrite IH. exists (event_data :: evs), message. reflexivity.
      * exists [], (exn_str e2). reflexivity.
    + destruct (is_JSONDecodeError e1); [simpl; eauto|].
      exists [], (exn_str e1). reflexivity.
Qed.

(** X3. A data line whose JSON is not an object and on which the test
    ["error" in event_data] raises or holds (a number, a boolean, null, a
    list that contains ["error"], a string that contains it) ends the
    stream: one error event is yielded and the lines after it are never
    read. *)
Theorem non_object_payload_ends_stream (line : string) (rest : line_stream)
    (v : pyval) :
  startswith "data: " line = true ->
  json_loads (str_drop 6 line) = Ok v ->
  not_dict v ->
  py_in "error" v <> Ok false ->
  aiter_lines (SLine line rest)
  = let e := match py_in "error" v with
             | Raise e => e
             | Ok _ => bad_index v
             end in
    [GLog ERROR ("调用Dify API错误: " +:+ exn_str e);
     GYield (error_event (exn_str e))].
Proof.
  intros Hp Hj Hv Hin. simpl. rewrite Hp, Hj.
  destruct (py_in "error" v) as [[|]|e] eqn:Hpy.
  - destruct v; try contradiction; reflexivity.
  - contradiction.
  - reflexivity.
Qed.

(** X4. A data line whose JSON object has an [error] key is turned into an
    error event that carries the text of that error, and the stream goes on
    with the next line. *)
Theorem error_payload_becomes_error_event (line : string) (rest : line_stream)
    (d : list (string * pyval)) (err : pyval) :
  startswith "data: " line = true ->
  json_loads (str_drop 6 line) = Ok (VDict d) ->
  dict_lookup "error" d = Some err ->
  yielded (aiter_lines (SLine line rest))
  = error_event ("MCP API错误: " +:+ py_str err) :: yielded (aiter_lines rest)
  /\ is_Error (error_event ("MCP API错误: " +:+ py_str err))
       (VStr ("MCP API错误: " +:+ py_str err)).
Proof.
  intros Hp Hj Hd. split.
  - simpl. rewrite Hp, Hj. simpl. rewrite Hd. reflexivity.
  - split; reflexivity.
Qed.

(** ** Further properties: token and delivery *)


Lemma startswith_oc_not_ou (s : string) :
  startswith "oc_" s = true -> startswith "ou_" s = false.
Proof.
  intros Hoc. destruct (startswith "ou_" s) eqn:Hou; [|reflexivity].
  exfalso. revert Hoc Hou.
  destruct s as [|a [|b s]]; cbv [startswith]; rewrite ?andb_true_iff;
    try discriminate.
  - intros [_ H]. discriminate H.
  - intros [_ [Hc _]] [_ [Hu _]].
    apply Ascii.eqb_eq in Hc, Hu. rewrite <- Hc in Hu. discriminate Hu.
Qed.

(** X6. One call of [send_feishu_message] makes exactly one message post,
    without retry: of type [open_id] when the identity starts with ["ou_"]
    and of type [chat_id] otherwise, with a warning logged exactly when the
    identity starts with neither ["oc_"] nor ["ou_"].  The call raises
    exactly when that post fails, with the exception of the post, and it
    leaves the store alone. *)
Theorem send_feishu_message_posts_once (w : world) (tok : pyval)
    (rid c : string) (st : state) :
  deliveries (trace (snd (send_feishu_message w tok rid c st)))
  = deliveries (trace st)
    ++ [mkDelivery (if startswith "ou_" rid then "open_id" else "chat_id")
          tok rid "text" c]
  /\ fst (send_feishu_message w tok rid c st)
     = match messages_post w (posts st) with
       | None => Ok tt
       | Some e => Raise e
       end
  /\ posts (snd (send_feishu_message w tok rid c st)) = S (posts st)
  /\ conversation_store (snd (send_feishu_message w tok rid c st))
     = conversation_store st
  /\ logged WARNING (trace (snd (send_feishu_message w tok rid c st)))
     = logged WARNING (trace st)
       ++ (if startswith "oc_" rid || startswith "ou_" rid then []
           else ["未知 receive_id 类型: " +:+ rid]).
Proof.
  rewrite send_feishu_message_run. cbn [fst snd after_post trace posts conversation_store].
  split; [|split; [reflexivity|split; [reflexivity|split; [reflexivity|]]]].
  - rewrite deliveries_app, deliveries_send_effects. unfold flush_of, receive_id_type_of.
    destruct (startswith "oc_" rid) eqn:Hoc; [|reflexivity].
    rewrite (startswith_oc_not_ou rid Hoc). reflexivity.
  - rewrite logged_app. f_equal. unfold send_effects. rewrite !logged_app.
    assert (Hfail : forall e, logged WARNING (send_failure_logs rid c e) = []).
    { intros e. unfold send_failure_logs. rewrite logged_app. simpl.
      destruct (exn_response e) as [[code text]|]; [|reflexivity].
      destruct (is_HTTPError e); reflexivity. }
    destruct (startswith "oc_" rid || startswith "ou_" rid); simpl;
      (destruct (messages_post w (posts st)) as [e|]; [rewrite Hfail|]; reflexivity).
Qed.

(** ** Further properties: the aggregation loop *)

Lemma concat_str_app (l1 l2 : list string) :
  concat_str (l1 ++ l2) = concat_str l1 +:+ concat_str l2.
Proof.
  induction l1 as [|s l1 IH]; [reflexivity|].
  simpl. rewrite IH, str_app_assoc. reflexivity.
Qed.

Lemma falsy_str (s : string) : truthy (VStr s) = false -> s = "".
Proof.
  simpl. destruct (String.eqb_spec s ""); [auto | discriminate].
Qed.

(** With every delivery succeeding, the texts delivered while Message
    events are consumed, followed by what is left in the accumulator, are
    the accumulator at the start followed by the fragments. *)
Lemma consume_messages_delivered (w : world) (tok : pyval) (user_id : string)
    (evs : list pyval) (frags : list string) :
  Forall2 is_Message evs frags ->
  (forall n, messages_post w n = None) ->
  forall acc st,
  exists texts acc' st',
    consume w tok user_id (map GYield evs) acc st = (Ok acc', st')
    /\ deliveries (trace st')
       = deliveries (trace st) ++ map (flush_of tok user_id) texts
    /\ concat_str texts +:+ acc' = acc +:+ concat_str frags.
Proof.
  intros Hevs Hall.
  induction Hevs as [|ev frag evs frags Hev Hrest IH]; intros acc st.
  - exists [], acc, st. simpl. rewrite app_nil_r, str_app_nil_r. auto.
  - simpl consume. unfold bind.
    rewrite (handle_message_run w tok user_id acc ev frag st Hev).
    destruct (50 <=? py_len (acc +:+ frag))%nat.
    + rewrite Hall.
      destruct (IH "" (chunk_flushed w tok user_id (acc +:+ frag) st))
        as (texts & acc' & st' & Hc & Hd & Hs).
      exists ((acc +:+ frag) :: texts), acc', st'.
      split; [exact Hc|]. split.
      * rewrite Hd, deliveries_chunk_flushed, <- app_assoc. reflexivity.
      * simpl concat_str. rewrite !str_app_assoc, Hs. reflexivity.
    + destruct (IH (acc +:+ frag) st) as (texts & acc' & st' & Hc & Hd & Hs).
      exists texts, acc', st'. rewrite str_app_assoc in Hs. auto.
Qed.

(** X7. When every delivery succeeds, a turn whose stream yields Message
    events and then a MessageEnd loses nothing and repeats nothing: the
    texts it delivers, concatenated in the order of delivery, are the
    fragments concatenated in the order of arrival. *)
Theorem delivered_texts_are_the_fragments (w : world) (message : pyval)
    (user_id : string) (conversation_id tok : pyval) (st st1 : state)
    (evs : list pyval) (frags : list string) (ev_end cid : pyval) :
  get_feishu_access_token w st = (Ok tok, st1) ->
  yielded (call_dify_api w message user_id conversation_id) = evs ++ [ev_end] ->
  Forall2 is_Message evs frags ->
  is_MessageEnd ev_end cid ->
  (forall n, messages_post w n = None) ->
  exists texts,
    deliveries (trace (snd (process_ai_response w message user_id conversation_id st)))
    = deliveries (trace st) ++ map (flush_of tok user_id) texts
    /\ concat_str texts = concat_str frags.
Proof.
  intros Htok Hy Hevs Hend Hall.
  pose proof (token_state_sim w tok st st1 Htok) as (_ & Hd1 & _ & _).
  destruct (consume_yielded w tok user_id
              (call_dify_api w message user_id conversation_id) "" st1 st1
              (sim_refl st1)) as [Hr Hs].
  rewrite Hy, map_app, consume_app in Hr, Hs.
  destruct (consume_messages_delivered w tok user_id evs frags Hevs Hall "" st1)
    as (texts & acc' & st' & Hc & Hd & Hcat).
  rewrite Hc in Hr, Hs. simpl consume in Hr, Hs. unfold bind in Hr, Hs.
  rewrite (handle_message_end_run w tok user_id acc' ev_end cid st' Hend) in Hr, Hs.
  cbn [fst snd ret] in Hr, Hs. apply pair_eq in Hr.
  rewrite (process_ai_response_ok _ _ _ _ _ _ _ _ _ Htok Hr). cbn [snd].
  destruct Hs as (_ & -> & _ & _).
  rewrite trace_recorded, deliveries_final_flushed, Hd, Hd1.
  destruct (truthy (VStr acc')) eqn:Hacc.
  - exists (texts ++ [acc']). split.
    + rewrite map_app, app_assoc. reflexivity.
    + rewrite concat_str_app. simpl concat_str. rewrite str_app_nil_r. exact Hcat.
  - exists texts. split; [rewrite app_nil_r; reflexivity|].
    apply falsy_str in Hacc. subst acc'. rewrite str_app_nil_r in Hcat. exact Hcat.
Qed.

(** X8. Whatever the deliveries do, every delivery made while Message
    events are consumed carries at least 50 characters, and Message events
    never abort the loop. *)
Theorem threshold_deliveries_are_long (w : world) (tok : pyval) (user_id : string)
    (evs : list pyval) (frags : list string) :
  Forall2 is_Message evs frags ->
  forall acc st,
  exists ds acc',
    fst (consume w tok user_id (map GYield evs) acc st) = Ok acc'
    /\ deliveries (trace (snd (consume w tok user_id (map GYield evs) acc st)))
       = deliveries (trace st) ++ ds
    /\ Forall (fun d => 50 <= py_len (d_content d)) ds.
Proof.
  induction 1 as [|ev frag evs frags Hev Hrest IH]; intros acc st.
  - exists [], acc. simpl. rewrite app_nil_r. auto.
  - simpl consume. unfold bind.
    rewrite (handle_message_run w tok user_id acc ev frag st Hev).
    destruct (50 <=? py_len (acc +:+ frag))%nat eqn:Hlen.
    + apply Nat.leb_le in Hlen.
      assert (Hstep : forall a,
                 exists ds acc',
                   fst (consume w tok user_id (map GYield evs) a
                          (chunk_flushed w tok user_id (acc +:+ frag) st)) = Ok acc'
                   /\ deliveries
                        (trace (snd (consume w tok user_id (map GYield evs) a
                                       (chunk_flushed w tok user_id (acc +:+ frag) st))))
                      = deliveries (trace st) ++ ds
                   /\ Forall (fun d => 50 <= py_len (d_content d)) ds).
      { intros a.
        destruct (IH a (chunk_flushed w tok user_id (acc +:+ frag) st))
          as (ds & acc' & Hr & Hd & Hf).
        exists (flush_of tok user_id (acc +:+ frag) :: ds), acc'.
        split; [exact Hr|]. split.
        - rewrite Hd, deliveries_chunk_flushed, <- app_assoc. reflexivity.
        - constructor; [exact Hlen | exact Hf]. }
      destruct (messages_post w (posts st)); apply Hstep.
    + apply IH.
Qed.

(** X9. A stream that ends without a MessageEnd leaves undelivered what
    was accumulated under the threshold: when all the fragments together
    stay under 50 characters the turn delivers nothing, and returns
    normally. *)
Theorem text_without_message_end_is_dropped (w : world) (message : pyval)
    (user_id : string) (conversation_id tok : pyval) (st st1 : state)
    (frags : list string) :
  get_feishu_access_token w st = (Ok tok, st1) ->
  Forall2 is_Message (yielded (call_dify_api w message user_id conversation_id)) frags ->
  (forall n, py_len (concat_str (firstn n frags)) < 50) ->
  fst (process_ai_response w message user_id conversation_id st) = Ok tt
  /\ deliveries (trace (snd (process_ai_response w message user_id conversation_id st)))
     = deliveries (trace st)
  /\ conversation_store (snd (process_ai_response w message user_id conversation_id st))
     = conversation_store st.
Proof.
  intros Htok Hevs Hlen.
  pose proof (token_state_sim w tok st st1 Htok) as (Hs1 & Hd1 & _ & _).
  destruct (consume_yielded w tok user_id
              (call_dify_api w message user_id conversation_id) "" st1 st1
              (sim_refl st1)) as [Hr Hs].
  rewrite (consume_messages_below w tok user_id _ frags Hevs "" st1 Hlen) in Hr, Hs.
  cbn [fst snd] in Hr, Hs. apply pair_eq in Hr.
  rewrite (process_ai_response_ok _ _ _ _ _ _ _ _ _ Htok Hr). cbn [fst snd].
  destruct Hs as (Hs2 & Hd2 & _ & _).
  split; [reflexivity|]. split; congruence.
Qed.

(** X10. A MessageEnd does not clear the accumulator, even when its flush
    succeeds: a second MessageEnd delivers the same text again. *)
Theorem message_end_keeps_accumulator (w : world) (tok : pyval) (user_id acc : string)
    (e1 c1 e2 c2 : pyval) (st : state) :
  is_MessageEnd e1 c1 ->
  is_MessageEnd e2 c2 ->
  acc <> "" ->
  fst (consume w tok user_id [GYield e1; GYield e2] acc st) = Ok acc
  /\ deliveries (trace (snd (consume w tok user_id [GYield e1; GYield e2] acc st)))
     = deliveries (trace st) ++ [flush_of tok user_id acc; flush_of tok user_id acc].
Proof.
  intros H1 H2 Hne. simpl consume. unfold bind.
  rewrite (handle_message_end_run w tok user_id acc e1 c1 st H1).
  rewrite (handle_message_end_run w tok user_id acc e2 c2 _ H2).
  cbn [fst snd ret]. split; [reflexivity|].
  rewrite !trace_recorded, !deliveries_final_flushed, !trace_recorded,
    !deliveries_final_flushed, (truthy_str acc Hne), <- app_assoc.
  reflexivity.
Qed.

Lemma handle_ignored_run (w : world) (tok : pyval) (user_id acc : string)
    (ev : pyval) (st : state) :
  is_ignored ev -> handle_event w tok user_id acc ev st = (Ok acc, st).
Proof.
  intros (t & He & H1 & H2 & H3). unfold handle_event, bind, lift.
  rewrite He, H1, H2, H3. reflexivity.
Qed.

(** X11. An event whose type is none of [message], [message_end] and
    [error] (or that has no type) can be taken out of the stream: the loop
    ends with the same result in the same state. *)
Theorem ignored_events_change_nothing (w : world) (tok : pyval) (user_id : string)
    (l1 l2 : list gen_item) (ev : pyval) (acc : string) (st : state) :
  is_ignored ev ->
  consume w tok user_id (l1 ++ GYield ev :: l2) acc st
  = consume w tok user_id (l1 ++ l2) acc st.
Proof.
  intros Hev. rewrite !consume_app.
  destruct (consume w tok user_id l1 acc st) as [[acc'|e] st']; [|reflexivity].
  simpl consume. unfold bind.
  rewrite (handle_ignored_run w tok user_id acc' ev st' Hev). reflexivity.
Qed.

(** An Error event: the error is logged and relayed to the user; the
    accumulator is left as it is. *)
Lemma handle_error_run (w : world) (tok : pyval) (user_id acc : string)
    (ev msg : pyval) (st : state) :
  is_Error ev msg ->
  handle_event w tok user_id acc ev st
  = (Ok acc,
     after_post st
       ([Log ERROR ("AI响应错误: " +:+ py_str msg)]
        ++ send_effects tok user_id ("处理您的请求时遇到错误: " +:+ py_str msg)
             (messages_post w (posts st))
        ++ match messages_post w (posts st) with
           | Some e => [Log ERROR ("发送错误消息失败: " +:+ exn_str e)]
           | None => []
           end)).
Proof.
  intros [He Hm]. unfold handle_event, bind, lift.
  rewrite He. simpl. rewrite Hm.
  unfold log, emit, try_except. simpl. rewrite send_feishu_message_run. simpl.
  destruct (messages_post w (posts st)) as [e|]; unfold after_post, ret; simpl;
    rewrite <- ?app_assoc, ?app_nil_r; reflexivity.
Qed.

Lemma deliveries_error_relayed (tok : pyval) (user_id text : string) (l1 : list effect)
    (o : option exn) (l3 : list effect) :
  deliveries l1 = [] -> deliveries l3 = [] ->
  deliveries (l1 ++ send_effects tok user_id text o ++ l3) = [flush_of tok user_id text].
Proof.
  intros H1 H3. rewrite !deliveries_app, deliveries_send_effects, H1, H3. reflexivity.
Qed.

(** X12. An Error event never aborts the loop and never touches the
    accumulator or the store: the error is logged and one delivery call is
    made, of the text ["处理您的请求时遇到错误: "] followed by the message of
    the event (["未知错误"] when the event has none). *)
Theorem error_event_is_relayed (w : world) (tok : pyval) (user_id acc : string)
    (ev msg : pyval) (st : state) :
  is_Error ev msg ->
  fst (handle_event w tok user_id acc ev st) = Ok acc
  /\ deliveries (trace (snd (handle_event w tok user_id acc ev st)))
     = deliveries (trace st)
       ++ [flush_of tok user_id ("处理您的请求时遇到错误: " +:+ py_str msg)]
  /\ conversation_store (snd (handle_event w tok user_id acc ev st))
     = conversation_store st
  /\ In ("AI响应错误: " +:+ py_str msg)
       (logged ERROR (trace (snd (handle_event w tok user_id acc ev st)))).
Proof.
  intros Hev. rewrite (handle_error_run w tok user_id acc ev msg st Hev).
  cbn [fst snd after_post trace conversation_store].
  split; [reflexivity|]. split; [|split; [reflexivity|]].
  - rewrite deliveries_app. f_equal. apply deliveries_error_relayed; [reflexivity|].
    destruct (messages_post w (posts st)); reflexivity.
  - rewrite !logged_app. apply in_or_app. right. apply in_or_app. left.
    simpl. auto.
Qed.

(** X13. When the request to the AI backend fails (no connection, a status
    that is not a success), the turn makes exactly one delivery, of the text
    ["处理您的请求时遇到错误: "] followed by the text of that failure; it
    returns normally and leaves the store alone. *)
Theorem backend_failure_is_relayed (w : world) (message : pyval) (user_id : string)
    (conversation_id tok : pyval) (st st1 : state) (e : exn) :
  get_feishu_access_token w st = (Ok tok, st1) ->
  chat_messages w = SRaise e ->
  fst (process_ai_response w message user_id conversation_id st) = Ok tt
  /\ deliveries (trace (snd (process_ai_response w message user_id conversation_id st)))
     = deliveries (trace st)
       ++ [flush_of tok user_id ("处理您的请求时遇到错误: " +:+ exn_str e)]
  /\ conversation_store (snd (process_ai_response w message user_id conversation_id st))
     = conversation_store st.
Proof.
  intros Htok Hchat.
  pose proof (token_state_sim w tok st st1 Htok) as (Hs1 & Hd1 & _ & _).
  unfold process_ai_response, call_dify_api. rewrite Htok, Hchat.
  cbv beta iota zeta fix delta [aiter_lines dify_failed consume bind log emit].
  rewrite (handle_error_run w tok user_id "" (error_event (exn_str e))
             (VStr (exn_str e)) _ (conj eq_refl eq_refl)).
  cbv beta iota delta [ret].
  cbn [fst snd after_post trace conversation_store posts py_str].
  split; [reflexivity|]. split; [|exact Hs1].
  rewrite !deliveries_app, deliveries_send_effects, Hd1.
  destruct (messages_post w (posts st1)); simpl; rewrite ?app_nil_r; reflexivity.
Qed.

Lemma handle_non_dict_run (w : world) (tok : pyval) (user_id acc : string)
    (v : pyval) (st : state) :
  not_dict v ->
  handle_event w tok user_id acc v st = (Raise (no_attribute v "get"), st).
Proof. destruct v; simpl; intros H; try contradiction; reflexivity. Qed.

(** X14. An event that is not a JSON object aborts the loop: the events
    after it are not handled, what was accumulated is not delivered, and the
    only delivery made from there on is the system error message. *)
Theorem non_object_event_aborts_turn (w : world) (message : pyval)
    (user_id : string) (conversation_id tok : pyval) (st st1 s : state)
    (pre post : list gen_item) (v : pyval) (acc : string) :
  get_feishu_access_token w st = (Ok tok, st1) ->
  call_dify_api w message user_id conversation_id = pre ++ GYield v :: post ->
  consume w tok user_id pre "" st1 = (Ok acc, s) ->
  not_dict v ->
  fst (process_ai_response w message user_id conversation_id st) = Ok tt
  /\ deliveries (trace (snd (process_ai_response w message user_id conversation_id st)))
     = deliveries (trace s)
       ++ [flush_of tok user_id ("系统错误: " +:+ exn_str (no_attribute v "get"))]
  /\ conversation_store (snd (process_ai_response w message user_id conversation_id st))
     = conversation_store s.
Proof.
  intros Htok Hcall Hpre Hv.
  unfold process_ai_response. rewrite Htok, Hcall, consume_app, Hpre.
  simpl consume. unfold bind.
  rewrite (handle_non_dict_run w tok user_id acc v s Hv), system_error_bound.
  cbn [fst snd after_post trace conversation_store].
  split; [reflexivity|]. split; [|reflexivity].
  rewrite deliveries_app. f_equal. apply deliveries_error_relayed; [reflexivity|].
  destruct (messages_post w (posts s)); reflexivity.
Qed.

(** ** Further properties: what a turn and the webhook never do *)

Section Frames.

Variable R : state -> state -> Prop.
Hypothesis R_refl : forall s, R s s.
Hypothesis R_trans : forall s1 s2 s3, R s1 s2 -> R s2 s3 -> R s1 s3.

Lemma respects_ret {A} (a : A) : respects R (ret a).
Proof. intros st. apply R_refl. Qed.

Lemma respects_raise {A} (e : exn) : respects R (@raise A e).
Proof. intros st. apply R_refl. Qed.

Lemma respects_lift {A} (r : result A) : respects R (lift r).
Proof. intros st. apply R_refl. Qed.

Lemma respects_bind {A B} (c : M A) (k : A -> M B) :
  respects R c -> (forall a, respects R (k a)) -> respects R (bind c k).
Proof.
  intros Hc Hk st. unfold bind. specialize (Hc st).
  destruct (c st) as [[a|e] st']; simpl in *; [|exact Hc].
  eapply R_trans; [exact Hc | apply Hk].
Qed.

Lemma respects_try_except {A} (c : M A) (h : exn -> M A) :
  respects R c -> (forall e, respects R (h e)) -> respects R (try_except c h).
Proof.
  intros Hc Hh st. unfold try_except. specialize (Hc st).
  destruct (c st) as [[a|e] st']; simpl in *; [exact Hc|].
  eapply R_trans; [exact Hc | apply Hh].
Qed.

Lemma respects_if {A} (b : bool) (c1 c2 : M A) :
  respects R c1 -> respects R c2 -> respects R (if b then c1 else c2).
Proof. destruct b; auto. Qed.

Create HintDb respects.
Hint Resolve respects_ret respects_raise respects_lift respects_bind
  respects_try_except respects_if : respects.

Variable w : world.
Variable tok : pyval.
Variable user_id : string.
Hypothesis R_log : forall lvl msg, respects R (log lvl msg).
Hypothesis R_post :
  forall c, respects R (post_message w (receive_id_type_of user_id) tok user_id "text" c).
Hypothesis R_store : forall cid, respects R (store_conversation w user_id cid).
Hypothesis R_request : forall data, respects R (emit (ChatMessagesPost data)).

Hint Resolve R_log R_post R_store R_request : respects.

Lemma respects_send_feishu_message (c : string) :
  respects R (send_feishu_message w tok user_id c).
Proof.
  unfold send_feishu_message.
  apply respects_bind; [auto with respects|]. intros _.
  apply respects_try_except; [auto with respects|]. intros e.
  repeat (apply respects_bind; [auto with respects|]; intros _).
  apply respects_bind; [|auto with respects].
  destruct (exn_response e) as [[code text]|]; auto with respects.
Qed.

Hint Resolve respects_send_feishu_message : respects.

Lemma respects_handle_event (acc : string) (ev : pyval) :
  respects R (handle_event w tok user_id acc ev).
Proof.
  unfold handle_event.
  apply respects_bind; [auto with respects|]. intros event_type.
  repeat apply respects_if.
  - apply respects_bind; [auto with respects|]. intros chunk.
    apply respects_bind; [auto with respects|]. intros acc'.
    auto 10 with respects.
  - apply respects_bind; [auto 10 with respects|]. intros _.
    apply respects_bind; [auto with respects|]. intros cid.
    auto 10 with respects.
  - apply respects_bind; [auto with respects|]. intros msg.
    auto 10 with respects.
  - auto with respects.
Qed.

Hint Resolve respects_handle_event : respects.

Lemma respects_consume (items : list gen_item) :
  forall acc, respects R (consume w tok user_id items acc).
Proof.
  induction items as [|[lvl msg|data|ev] rest IH]; intros acc; simpl;
    auto with respects.
Qed.

Lemma respects_system_error (e : exn) :
  respects R (system_error w (Some tok) user_id e).
Proof.
  unfold system_error.
  apply respects_bind; [auto with respects|]. intros _.
  apply respects_try_except; [|auto with respects].
  intros st.
  exact (respects_send_feishu_message ("系统错误: " +:+ exn_str e) st).
Qed.

Hypothesis R_get : forall key, respects R (emit (StoreGet key)).
Hypothesis R_task : forall text rid cid, respects R (emit (CreateTask text rid cid)).

Hint Resolve R_get R_task : respects.

Lemma respects_store_get (receive_id : pyval) : respects R (store_get receive_id).
Proof.
  assert (Hread : forall key : string,
             respects R (fun st => (Ok (conversation_store st !! key), st))).
  { intros key st. apply R_refl. }
  destruct receive_id; simpl; auto with respects.
Qed.

Hint Resolve respects_store_get : respects.

Lemma respects_handle_message_event (data : pyval) :
  respects R (handle_message_event data).
Proof.
  unfold handle_message_event.
  apply respects_bind; [auto with respects|]. intros event.
  apply respects_bind; [auto with respects|]. intros message.
  apply respects_bind; [auto with respects|]. intros message_type.
  apply respects_if; [|auto with respects].
  repeat (apply respects_bind; [auto with respects|]; intros ?).
  cbv zeta. apply respects_if; [|auto with respects].
  apply respects_bind; [auto with respects|]. intros cd. auto with respects.
Qed.

Hint Resolve respects_handle_message_event : respects.

Lemma respects_feishu_webhook (request_body : result string) :
  respects R (feishu_webhook request_body).
Proof.
  unfold feishu_webhook.
  apply respects_try_except; [|auto with respects].
  apply respects_bind; [auto with respects|]. intros body.
  apply respects_bind; [auto with respects|]. intros body_str.
  apply respects_bind; [auto with respects|]. intros data.
  apply respects_bind; [auto with respects|]. intros has_challenge.
  apply respects_if; [auto with respects|].
  apply respects_bind; [auto with respects|]. intros has_event.
  auto 10 with respects.
Qed.

End Frames.

Lemma turn_frame_refl (user_id : string) (tok : option pyval) (s : state) :
  turn_frame user_id tok s s.
Proof.
  split; [reflexivity|]. exists []. rewrite app_nil_r. auto.
Qed.

Lemma turn_frame_trans (user_id : string) (tok : option pyval) (s1 s2 s3 : state) :
  turn_frame user_id tok s1 s2 -> turn_frame user_id tok s2 s3 ->
  turn_frame user_id tok s1 s3.
Proof.
  intros [Hk1 (t1 & Ht1 & Hf1)] [Hk2 (t2 & Ht2 & Hf2)]. split.
  - intros k Hk. rewrite (Hk2 k Hk). apply Hk1. exact Hk.
  - exists (t1 ++ t2). rewrite Ht2, Ht1, app_assoc. split; [reflexivity|].
    apply Forall_app. auto.
Qed.

Lemma turn_frame_effects (user_id : string) (tok : option pyval) (s : state)
    (tr : list effect) :
  Forall (turn_effect user_id tok) tr -> turn_frame user_id tok s (after_effects s tr).
Proof. intros H. split; [reflexivity|]. exists tr. auto. Qed.

(** The frame of a whole turn, by the token it acquired. *)
Lemma process_ai_response_frame (w : world) (message : pyval) (user_id : string)
    (conversation_id : pyval) (st : state) :
  turn_frame user_id
    (match fst (get_feishu_access_token w st) with
     | Ok tok => Some tok
     | Raise _ => None
     end)
    st (snd (process_ai_response w message user_id conversation_id st)).
Proof.
  unfold process_ai_response.
  pose proof (get_feishu_access_token_run w st) as Hrun.
  destruct (get_feishu_access_token w st) as [[tok|e] st1] eqn:Htok; cbn [fst].
  - assert (H1 : turn_frame user_id (Some tok) st st1).
    { destruct (token_exchange w) as [td|e0];
        [destruct (method_get td "tenant_access_token" VNone)|];
        inversion Hrun; subst.
      apply turn_frame_effects. repeat constructor. }
    assert (Hlog : forall lvl msg, respects (turn_frame user_id (Some tok)) (log lvl msg)).
    { intros lvl msg s. apply (turn_frame_effects _ _ s [Log lvl msg]).
      repeat constructor. }
    assert (Hpost : forall c,
               respects (turn_frame user_id (Some tok))
                 (post_message w (receive_id_type_of user_id) tok user_id "text" c)).
    { intros c s. unfold post_message.
      split; [destruct (messages_post w (posts s)); reflexivity|].
      exists [MessagesPost (receive_id_type_of user_id) tok user_id "text" c].
      split; [destruct (messages_post w (posts s)); reflexivity|].
      repeat constructor. }
    assert (Hstore : forall cid,
               respects (turn_frame user_id (Some tok))
                 (store_conversation w user_id cid)).
    { intros cid s. split.
      - intros k Hk. simpl. apply lookup_insert_ne. congruence.
      - exists []. simpl. rewrite app_nil_r. auto. }
    assert (Hreq : forall data,
               respects (turn_frame user_id (Some tok)) (emit (ChatMessagesPost data))).
    { intros data s. apply (turn_frame_effects _ _ s [ChatMessagesPost data]).
      repeat constructor. }
    pose proof (respects_consume _ (turn_frame_refl user_id (Some tok))
                  (turn_frame_trans user_id (Some tok)) w tok user_id
                  Hlog Hpost Hstore Hreq
                  (call_dify_api w message user_id conversation_id) "" st1) as H2.
    destruct (consume w tok user_id
                (call_dify_api w message user_id conversation_id) "" st1)
      as [[acc|e] st2]; cbn [snd] in H2 |- *.
    + eapply turn_frame_trans; eauto.
    + pose proof (respects_system_error _ (turn_frame_refl user_id (Some tok))
                    (turn_frame_trans user_id (Some tok)) w tok user_id
                    Hlog Hpost e st2) as H3.
      eapply turn_frame_trans; [exact H1|].
      eapply turn_frame_trans; [exact H2 | exact H3].
  - rewrite system_error_unbound. cbn [snd].
    assert (H1 : turn_frame user_id None st st1).
    { destruct (token_exchange w) as [td|e0];
        [destruct (method_get td "tenant_access_token" VNone)|];
        inversion Hrun; subst; apply turn_frame_effects; repeat constructor. }
    eapply turn_frame_trans; [exact H1|].
    apply turn_frame_effects. repeat constructor.
Qed.

(** X15. Every message a turn posts is a text message to the turn's own
    identity, with the target kind of that identity and the token acquired
    at the start of the turn (none is posted when no token was acquired);
    besides, a turn only logs and makes the token and chat requests: it
    creates no task and does not read the store. *)
Theorem turn_posts_only_to_its_identity (w : world) (message : pyval)
    (user_id : string) (conversation_id : pyval) (st : state) :
  exists tr,
    trace (snd (process_ai_response w message user_id conversation_id st))
    = trace st ++ tr
    /\ Forall
         (turn_effect user_id
            (match fst (get_feishu_access_token w st) with
             | Ok tok => Some tok
             | Raise _ => None
             end)) tr.
Proof. apply process_ai_response_frame. Qed.

(** X16. A turn writes no store entry but the one of its own identity. *)
Theorem turn_writes_only_its_entry (w : world) (message : pyval)
    (user_id : string) (conversation_id : pyval) (st : state) (k : string) :
  k <> user_id ->
  conversation_store (snd (process_ai_response w message user_id conversation_id st)) !! k
  = conversation_store st !! k.
Proof. apply process_ai_response_frame. Qed.


Lemma webhook_frame_refl (s : state) : webhook_frame s s.
Proof. repeat split. exists []. rewrite app_nil_r. auto. Qed.

Lemma webhook_frame_trans (s1 s2 s3 : state) :
  webhook_frame s1 s2 -> webhook_frame s2 s3 -> webhook_frame s1 s3.
Proof.
  intros (A1 & B1 & C1 & t1 & Ht1 & Hf1) (A2 & B2 & C2 & t2 & Ht2 & Hf2).
  repeat split; try congruence.
  exists (t1 ++ t2). rewrite Ht2, Ht1, app_assoc. split; [reflexivity|].
  apply Forall_app. auto.
Qed.

Lemma webhook_frame_emit (e : effect) :
  webhook_effect e -> respects webhook_frame (emit e).
Proof. intros He st. repeat split. exists [e]. auto. Qed.

(** X17. Whatever the request is, the webhook handler itself only logs,
    reads the store and creates tasks: it requests no token, calls no AI
    backend, posts no message, and leaves the store as it is. *)
Theorem webhook_only_schedules (request_body : result string) (st : state) :
  conversation_store (snd (feishu_webhook request_body st)) = conversation_store st
  /\ posts (snd (feishu_webhook request_body st)) = posts st
  /\ clock (snd (feishu_webhook request_body st)) = clock st
  /\ exists tr,
       trace (snd (feishu_webhook request_body st)) = trace st ++ tr
       /\ Forall webhook_effect tr.
Proof.
  apply (respects_feishu_webhook webhook_frame webhook_frame_refl webhook_frame_trans).
  - intros lvl msg. apply webhook_frame_emit. exact I.
  - intros key. apply webhook_frame_emit. exact I.
  - intros text rid cid. apply webhook_frame_emit. exact I.
Qed.

(** A text message whose identity is a non-empty string: the store is read
    at that identity and one task is created. *)
Lemma handle_message_event_run (data text chat_id open_id : pyval) (key : string)
    (st : state) :
  text_message data text chat_id open_id ->
  (if truthy chat_id then chat_id else open_id) = VStr key ->
  key <> "" ->
  handle_message_event data st
  = (Ok tt,
     after_effects st
       [StoreGet (VStr key);
        CreateTask text (VStr key)
          (match conversation_store st !! key with
           | Some c => conversation_id c
           | None => VNone
           end)]).
Proof.
  intros (event & message & content_json & sender & sid & mc
          & H1 & H2 & H3 & H4 & H5 & H6 & H7 & H8 & H9 & H10) Hrid Hkey.
  unfold handle_message_event, bind, lift.
  rewrite H1, H2, H3. simpl. rewrite H4, H5, H6, H7, H8, H9, H10, Hrid.
  rewrite (truthy_str key Hkey). simpl.
  unfold after_effects, emit. simpl. rewrite <- app_assoc. reflexivity.
Qed.

Lemma text_message_has_event (data text chat_id open_id : pyval) :
  text_message data text chat_id open_id -> py_in "event" data = Ok true.
Proof.
  intros (event & message & content_json & sender & sid & mc
          & H1 & H2 & H3 & _).
  destruct data; try discriminate H1. simpl in *.
  destruct (dict_lookup "event" d); [reflexivity|].
  inversion H1; subst. inversion H2; subst. discriminate H3.
Qed.

Lemma feishu_webhook_text_run (body : string) (data text chat_id open_id : pyval)
    (key : string) (st : state) :
  utf8_valid body = true ->
  json_loads body = Ok data ->
  py_in "challenge" data = Ok false ->
  text_message data text chat_id open_id ->
  (if truthy chat_id then chat_id else open_id) = VStr key ->
  key <> "" ->
  feishu_webhook (Ok body) st
  = (Ok success_response,
     after_effects st
       [StoreGet (VStr key);
        CreateTask text (VStr key)
          (match conversation_store st !! key with
           | Some c => conversation_id c
           | None => VNone
           end)]).
Proof.
  intros Hutf Hjson Hch Htext Hrid Hkey.
  unfold feishu_webhook, try_except, bind, lift, decode_utf8.
  rewrite Hutf, Hjson, Hch, (text_message_has_event _ _ _ _ Htext).
  rewrite (handle_message_event_run data text chat_id open_id key st Htext Hrid Hkey).
  reflexivity.
Qed.

(** X18. A text message makes the webhook create exactly one task, for the
    chat when the message has a chat id and for the sender otherwise, with
    the text of the message and the conversation identifier the store holds
    for that identity ([None] when it holds none); the store is read once
    and the sender is acknowledged. *)
Theorem text_message_creates_task (body : string) (data text chat_id open_id : pyval)
    (key : string) (st : state) :
  utf8_valid body = true ->
  json_loads body = Ok data ->
  py_in "challenge" data = Ok false ->
  text_message data text chat_id open_id ->
  (if truthy chat_id then chat_id else open_id) = VStr key ->
  key <> "" ->
  fst (feishu_webhook (Ok body) st) = Ok success_response
  /\ trace (snd (feishu_webhook (Ok body) st))
     = trace st
       ++ [StoreGet (VStr key);
           CreateTask text (VStr key)
             (match conversation_store st !! key with
              | Some c => conversation_id c
              | None => VNone
              end)].
Proof.
  intros Hutf Hjson Hch Htext Hrid Hkey.
  rewrite (feishu_webhook_text_run body data text chat_id open_id key st
             Hutf Hjson Hch Htext Hrid Hkey).
  split; reflexivity.
Qed.

(** X19. A text message without a usable identity (no chat id and no sender
    open id, or empty ones) is acknowledged and creates no task; the store
    is not read. *)
Theorem message_without_identity_is_dropped (body : string)
    (data text chat_id open_id : pyval) (st : state) :
  utf8_valid body = true ->
  json_loads body = Ok data ->
  py_in "challenge" data = Ok false ->
  text_message data text chat_id open_id ->
  truthy chat_id = false ->
  truthy open_id = false ->
  feishu_webhook (Ok body) st = (Ok success_response, st).
Proof.
  intros Hutf Hjson Hch Htext Hc Ho.
  unfold feishu_webhook, try_except, bind, lift, decode_utf8.
  rewrite Hutf, Hjson, Hch, (text_message_has_event _ _ _ _ Htext).
  destruct Htext as (event & message & content_json & sender & sid & mc
                     & H1 & H2 & H3 & H4 & H5 & H6 & H7 & H8 & H9 & H10).
  unfold handle_message_event, bind, lift.
  rewrite H1, H2, H3. simpl. rewrite H4, H5, H6, H7, H8, H9, H10, Hc, Ho.
  reflexivity.
Qed.

(** X20. An event whose message is not of type text (an image, a file, a
    message without type) is acknowledged and nothing else happens. *)
Theorem other_message_types_are_ignored (body : string)
    (data event message message_type : pyval) (st : state) :
  utf8_valid body = true ->
  json_loads body = Ok data ->
  py_in "challenge" data = Ok false ->
  method_get data "event" (VDict []) = Ok event ->
  method_get event "message" (VDict []) = Ok message ->
  method_get message "message_type" VNone = Ok message_type ->
  py_eq_str message_type "text" = false ->
  feishu_webhook (Ok body) st = (Ok success_response, st).
Proof.
  intros Hutf Hjson Hch H1 H2 H3 Hmt.
  unfold feishu_webhook, try_except, bind, lift, decode_utf8.
  rewrite Hutf, Hjson, Hch.
  destruct data; try discriminate H1.
  destruct (py_in "event" (VDict d)) as [[|]|e] eqn:Hev; try discriminate Hev.
  - unfold handle_message_event, bind, lift. rewrite H1, H2, H3, Hmt. reflexivity.
  - reflexivity.
Qed.

Lemma created_tasks_app (t1 t2 : list effect) :
  created_tasks (t1 ++ t2) = created_tasks t1 ++ created_tasks t2.
Proof.
  induction t1 as [|e t1 IH]; simpl; [reflexivity|].
  destruct e; simpl; rewrite ?IH; reflexivity.
Qed.

(** X21. The store carries the conversation from one turn to the next: once
    a turn for an identity has handled a MessageEnd with a conversation
    identifier, the next text message of that identity creates a task with
    that conversation identifier. *)
Theorem conversation_round_trip (w : world) (tok : pyval) (user_id acc : string)
    (ev_end cid : pyval) (body : string) (data text chat_id open_id : pyval)
    (st : state) :
  is_MessageEnd ev_end cid ->
  truthy cid = true ->
  utf8_valid body = true ->
  json_loads body = Ok data ->
  py_in "challenge" data = Ok false ->
  text_message data text chat_id open_id ->
  (if truthy chat_id then chat_id else open_id) = VStr user_id ->
  user_id <> "" ->
  created_tasks
    (trace (snd (feishu_webhook (Ok body)
                   (snd (handle_event w tok user_id acc ev_end st)))))
  = created_tasks (trace st) ++ [(text, VStr user_id, cid)].
Proof.
  intros Hend Hcid Hutf Hjson Hch Htext Hrid Hkey.
  rewrite (feishu_webhook_text_run body data text chat_id open_id user_id _
             Hutf Hjson Hch Htext Hrid Hkey).
  rewrite (handle_message_end_run w tok user_id acc ev_end cid st Hend).
  cbn [snd after_effects trace conversation_store].
  unfold recorded at 2. rewrite Hcid. cbn [conversation_store].
  rewrite lookup_insert_eq. cbn [conversation_id].
  rewrite created_tasks_app, trace_recorded. f_equal.
  unfold final_flushed. destruct (truthy (VStr acc)); [|reflexivity].
  cbn [after_post trace]. rewrite created_tasks_app.
  rewrite <- (app_nil_r (created_tasks (trace st))) at 2. f_equal.
  unfold send_effects, send_failure_logs.
  rewrite !created_tasks_app.
  destruct (startswith "oc_" user_id || startswith "ou_" user_id);
    destruct (messages_post w (posts st)) as [e|]; simpl; try reflexivity;
    destruct (exn_response e) as [[code t]|]; try reflexivity;
    destruct (is_HTTPError e); reflexivity.
Qed.

End Relay.

(** ** The claims on examples

    Each theorem above that has hypotheses is applied here to a concrete
    world, with [Demo.loads], [Demo.dumps] and [Demo.repr] for the library
    functions. *)

(** The stream of C1: three fragments, the third of which reaches the
    threshold, then MessageEnd; every delivery succeeds. *)
Lemma three_fragments_flush_once_witness :
  let w :=
    Demo.world_of
      [Demo.line_message "Hi "; Demo.line_message "there, ";
       Demo.line_message "how can I help you today with your inquiry";
       Demo.line_message_end "conv-42"]
      Demo.always_delivered in
  fst (process_ai_response Demo.loads Demo.dumps Demo.repr w (VStr "hello")
         "ou_123" VNone Demo.st0) = Ok tt
  /\ deliveries
       (trace (snd (process_ai_response Demo.loads Demo.dumps Demo.repr w
                      (VStr "hello") "ou_123" VNone Demo.st0)))
     = [flush_of Demo.token "ou_123"
          "Hi there, how can I help you today with your inquiry"].
Proof.
  intros w.
  refine (proj2
            (three_fragments_flush_once Demo.loads Demo.dumps Demo.repr w
               (VStr "hello") "ou_123" VNone Demo.token Demo.st0 Demo.st1
               (firstn 4 (call_dify_api Demo.loads Demo.repr w (VStr "hello")
                            "ou_123" VNone))
               []
               (Demo.message "Hi ") (Demo.message "there, ")
               (Demo.message "how can I help you today with your inquiry")
               (Demo.message_end "conv-42") (VStr "conv-42")
               _ _ _ _ _ _ _ _ _));
    try (vm_compute; reflexivity);
    try (split; vm_compute; reflexivity).
Defined.

(** A fragment of 52 characters whose delivery fails: one delivery call is
    made and the accumulator keeps the text. *)
Lemma threshold_flush_resets_on_success_witness :
  let w := Demo.world_of [] Demo.first_post_fails in
  deliveries
    (trace (snd (handle_event Demo.dumps Demo.repr w Demo.token "ou_123" ""
                   (Demo.message Demo.long_text) Demo.st1)))
  = [flush_of Demo.token "ou_123" Demo.long_text]
  /\ fst (handle_event Demo.dumps Demo.repr w Demo.token "ou_123" ""
            (Demo.message Demo.long_text) Demo.st1)
     = Ok Demo.long_text.
Proof.
  intros w.
  destruct (threshold_flush_resets_on_success Demo.dumps Demo.repr w Demo.token
              "ou_123" "" (Demo.message Demo.long_text) Demo.long_text Demo.st1)
    as [Hd Hm].
  - split; reflexivity.
  - vm_compute. lia.
  - split; [exact Hd|]. exact (proj1 Hm).
Defined.

(** C2 as stated fails: at a Message event that brings the accumulator to
    52 characters and whose delivery call fails, the accumulator is not
    empty after the flush step. *)
Lemma reset_regardless_of_outcome_counterexample :
  let w := Demo.world_of [] Demo.first_post_fails in
  is_Message (Demo.message Demo.long_text) Demo.long_text
  /\ 50 <= py_len ("" +:+ Demo.long_text)
  /\ messages_post w (posts Demo.st1) = Some Demo.server_error
  /\ fst (handle_event Demo.dumps Demo.repr w Demo.token "ou_123" ""
            (Demo.message Demo.long_text) Demo.st1)
     = Ok Demo.long_text
  /\ fst (handle_event Demo.dumps Demo.repr w Demo.token "ou_123" ""
            (Demo.message Demo.long_text) Demo.st1)
     <> Ok "".
Proof.
  intros w. split; [split; reflexivity|].
  split; [vm_compute; lia|].
  split; [reflexivity|].
  split; [vm_compute; reflexivity|].
  vm_compute. discriminate.
Qed.

(** The flush of a 52-character fragment fails; the MessageEnd that follows
    flushes the text that was kept and records its conversation. *)
Lemma failed_flush_does_not_stop_turn_witness :
  let w := Demo.world_of [] Demo.first_post_fails in
  exists st',
    consume Demo.dumps Demo.repr w Demo.token "ou_123"
      [GYield (Demo.message Demo.long_text); GYield (Demo.message_end "conv-42")]
      "" Demo.st1
    = (Ok Demo.long_text, st')
    /\ map d_content (deliveries (trace st')) = [Demo.long_text; Demo.long_text]
    /\ conversation_store st' !! "ou_123"
       = Some (mkConversation (VStr "conv-42") (Demo.now 0)).
Proof.
  intros w.
  destruct (failed_flush_does_not_stop_turn Demo.dumps Demo.repr w Demo.token
              "ou_123" "" (Demo.message Demo.long_text) Demo.long_text
              Demo.server_error [] [] (Demo.message_end "conv-42")
              (VStr "conv-42") Demo.long_text Demo.st1
              (snd (consume Demo.dumps Demo.repr w Demo.token "ou_123"
                      [GYield (Demo.message Demo.long_text)] "" Demo.st1)))
    as (Hlog & Hrun & Hdel & Hstore).
  - split; reflexivity.
  - vm_compute. lia.
  - reflexivity.
  - vm_compute. reflexivity.
  - split; reflexivity.
  - eexists. split; [exact Hrun|]. split.
    + rewrite Hdel by discriminate. vm_compute. reflexivity.
    + apply Hstore. reflexivity.
Defined.

(** The turn of identity ["ou_123"] whose MessageEnd carries ["conv-42"]. *)
Lemma message_end_records_conversation_witness :
  let w :=
    Demo.world_of
      [Demo.line_message "Hi "; Demo.line_message "there, ";
       Demo.line_message "how can I help you today with your inquiry";
       Demo.line_message_end "conv-42"]
      Demo.always_delivered in
  conversation_store
    (snd (process_ai_response Demo.loads Demo.dumps Demo.repr w (VStr "hello")
            "ou_123" VNone Demo.st0)) !! "ou_123"
  = Some (mkConversation (VStr "conv-42") (Demo.now 0)).
Proof.
  intros w.
  refine (proj2 (proj2
            (message_end_records_conversation Demo.loads Demo.dumps Demo.repr w
               (VStr "hello") "ou_123" VNone Demo.token Demo.st0 Demo.st1
               (firstn 4 (call_dify_api Demo.loads Demo.repr w (VStr "hello")
                            "ou_123" VNone))
               [] (Demo.message_end "conv-42") (VStr "conv-42") ""
               (snd (consume Demo.dumps Demo.repr w Demo.token "ou_123"
                       (firstn 4 (call_dify_api Demo.loads Demo.repr w
                                    (VStr "hello") "ou_123" VNone))
                       "" Demo.st1))
               _ _ _ _ _ _)));
    try (vm_compute; reflexivity).
  - split; reflexivity.
  - constructor.
Defined.

(** A line that is not JSON between a Message and a MessageEnd. *)
Lemma malformed_line_is_skipped_witness :
  let w := Demo.world_of [] Demo.always_delivered in
  let before := [Demo.line_message "Hi "] in
  let after := SLine (Demo.line_message_end "conv-42") SEnd in
  yielded
    (aiter_lines Demo.loads Demo.repr (lines_then before (SLine "data: {oops" after)))
  = yielded (aiter_lines Demo.loads Demo.repr (lines_then before after))
  /\ deliveries
       (trace
          (snd (process_ai_response Demo.loads Demo.dumps Demo.repr
                  (with_chat_messages w (lines_then before (SLine "data: {oops" after)))
                  (VStr "hello") "ou_123" VNone Demo.st0)))
     = deliveries
         (trace
            (snd (process_ai_response Demo.loads Demo.dumps Demo.repr
                    (with_chat_messages w (lines_then before after))
                    (VStr "hello") "ou_123" VNone Demo.st0))).
Proof.
  intros w before after.
  destruct (malformed_line_is_skipped Demo.loads Demo.dumps Demo.repr w
              (VStr "hello") "ou_123" VNone Demo.st0 before "data: {oops" after
              Demo.decode_error)
    as (_ & Hy & _ & Hd & _); try (vm_compute; reflexivity).
  exact (conj Hy Hd).
Defined.

(** Two fragments of 12 characters in all, then MessageEnd. *)
Lemma short_fragments_flush_once_at_end_witness :
  let w :=
    Demo.world_of
      [Demo.line_message "Hello"; Demo.line_message ", world";
       Demo.line_message_end "conv-7"]
      Demo.always_delivered in
  fst (process_ai_response Demo.loads Demo.dumps Demo.repr w (VStr "hello")
         "oc_555" VNone Demo.st0) = Ok tt
  /\ deliveries
       (trace (snd (process_ai_response Demo.loads Demo.dumps Demo.repr w
                      (VStr "hello") "oc_555" VNone Demo.st0)))
     = [flush_of Demo.token "oc_555" "Hello, world"].
Proof.
  intros w.
  refine (proj2
            (short_fragments_flush_once_at_end Demo.loads Demo.dumps Demo.repr w
               (VStr "hello") "oc_555" VNone Demo.token Demo.st0 Demo.st1
               (firstn 3 (call_dify_api Demo.loads Demo.repr w (VStr "hello")
                            "oc_555" VNone))
               [] (Demo.message_end "conv-7") (VStr "conv-7")
               ["Hello"; ", world"]
               _ _ _ _ _ _ _));
    try (vm_compute; reflexivity).
  - vm_compute. repeat constructor.
  - split; reflexivity.
  - intros [|[|[|n]]]; vm_compute; lia.
  - vm_compute. discriminate.
Defined.

(** The verification handshake. *)
Lemma challenge_is_echoed_witness :
  feishu_webhook Demo.loads Demo.dumps
    (Ok ("{" +:+ Demo.quoted "challenge" +:+ ":" +:+ Demo.quoted "abc123" +:+ "}"))
    Demo.st0
  = (Ok (mkResponse
           ("{" +:+ Demo.quoted "challenge" +:+ ": " +:+ Demo.quoted "abc123"
            +:+ ", " +:+ Demo.quoted "code" +:+ ": 0}")
           "application/json"),
     Demo.st0).
Proof.
  exact (challenge_is_echoed Demo.loads Demo.dumps
           ("{" +:+ Demo.quoted "challenge" +:+ ":" +:+ Demo.quoted "abc123" +:+ "}")
           [("challenge", VStr "abc123")] (VStr "abc123") Demo.st0
           eq_refl eq_refl eq_refl).
Defined.

(** The token endpoint cannot be reached. *)
Lemma token_failure_delivers_nothing_witness :
  let w :=
    mkWorld (Raise Demo.connect_error)
      (lines_then [Demo.line_message "Hi "] SEnd)
      Demo.always_delivered Demo.now "0b9e8a54-3a55-4c0f-9d0a-6f3c1f2f7a11" in
  fst (process_ai_response Demo.loads Demo.dumps Demo.repr w (VStr "hello")
         "ou_123" VNone Demo.st0) = Ok tt
  /\ deliveries
       (trace (snd (process_ai_response Demo.loads Demo.dumps Demo.repr w
                      (VStr "hello") "ou_123" VNone Demo.st0)))
     = []
  /\ conversation_store
       (snd (process_ai_response Demo.loads Demo.dumps Demo.repr w (VStr "hello")
               "ou_123" VNone Demo.st0))
     = ∅.
Proof.
  intros w.
  destruct (token_failure_delivers_nothing Demo.loads Demo.dumps Demo.repr w
              (VStr "hello") "ou_123" VNone Demo.connect_error Demo.st0
              (snd (get_feishu_access_token w Demo.st0)))
    as (Hrun & Hd & Hs).
  - vm_compute. reflexivity.
  - rewrite Hrun in *. auto.
Defined.

(** The stream yields a JSON array: the loop body raises on its [get], and
    the system error message is delivered. *)
Lemma process_ai_response_never_raises_witness :
  let w := Demo.world_of ["data: [1, 2]"] Demo.always_delivered in
  fst (process_ai_response Demo.loads Demo.dumps Demo.repr w (VStr "hello")
         "ou_123" VNone Demo.st0) = Ok tt
  /\ deliveries
       (trace (snd (process_ai_response Demo.loads Demo.dumps Demo.repr w
                      (VStr "hello") "ou_123" VNone Demo.st0)))
     = [flush_of Demo.token "ou_123"
          "系统错误: 'list' object has no attribute 'get'"].
Proof.
  intros w.
  pose proof (process_ai_response_never_raises Demo.loads Demo.dumps Demo.repr w
                (VStr "hello") "ou_123" VNone Demo.st0) as [Hret Hcase].
  split; [exact Hret|].
  vm_compute in Hcase. vm_compute. exact (proj1 Hcase).
Defined.

(** A body that is not JSON is acknowledged all the same. *)
Lemma webhook_always_acknowledges_witness :
  fst (feishu_webhook Demo.loads Demo.dumps (Ok "{oops") Demo.st0)
  = Ok (mkResponse
          ("{" +:+ Demo.quoted "code" +:+ ": 0, " +:+ Demo.quoted "msg" +:+ ": "
           +:+ Demo.quoted "success" +:+ "}")
          "application/json").
Proof.
  destruct (webhook_always_acknowledges Demo.loads Demo.dumps (Ok "{oops") Demo.st0)
    as (resp & st' & Hrun & [Hresp | (body & data & challenge & Hb & Hj & _)]).
  - rewrite Hrun, Hresp. reflexivity.
  - injection Hb as <-. vm_compute in Hj. discriminate Hj.
Defined.

(** ** The further properties on examples *)

(** The line [data: 5] ends the stream; the Message after it is not read. *)
Lemma non_object_payload_ends_stream_witness :
  yielded
    (aiter_lines Demo.loads Demo.repr
       (SLine "data: 5" (SLine (Demo.line_message "Hi ") SEnd)))
  = [error_event "argument of type 'int' is not iterable"].
Proof.
  rewrite (non_object_payload_ends_stream Demo.loads Demo.repr "data: 5"
             (SLine (Demo.line_message "Hi ") SEnd) (VInt 5)).
  - reflexivity.
  - reflexivity.
  - reflexivity.
  - exact I.
  - discriminate.
Defined.

(** The line [data: {"error": "quota"}]. *)
Lemma error_payload_becomes_error_event_witness :
  yielded
    (aiter_lines Demo.loads Demo.repr
       (SLine ("data: {" +:+ Demo.quoted "error" +:+ ": " +:+ Demo.quoted "quota" +:+ "}")
          SEnd))
  = [error_event "MCP API错误: quota"].
Proof.
  exact (proj1
           (error_payload_becomes_error_event Demo.loads Demo.repr
              ("data: {" +:+ Demo.quoted "error" +:+ ": " +:+ Demo.quoted "quota" +:+ "}")
              SEnd [("error", VStr "quota")] (VStr "quota")
              eq_refl eq_refl eq_refl)).
Defined.


(** Two fragments of 52 characters, one of 5, then MessageEnd: three
    deliveries, whose texts are the fragments. *)
Lemma delivered_texts_are_the_fragments_witness :
  let w :=
    Demo.world_of
      [Demo.line_message Demo.long_text; Demo.line_message Demo.long_text;
       Demo.line_message "Bye."; Demo.line_message_end "conv-42"]
      Demo.always_delivered in
  exists texts,
    deliveries
      (trace (snd (process_ai_response Demo.loads Demo.dumps Demo.repr w
                     (VStr "hello") "ou_123" VNone Demo.st0)))
    = map (flush_of Demo.token "ou_123") texts
    /\ concat_str texts = concat_str [Demo.long_text; Demo.long_text; "Bye."].
Proof.
  intros w.
  apply (delivered_texts_are_the_fragments Demo.loads Demo.dumps Demo.repr w
           (VStr "hello") "ou_123" VNone Demo.token Demo.st0 Demo.st1
           [Demo.message Demo.long_text; Demo.message Demo.long_text;
            Demo.message "Bye."]
           [Demo.long_text; Demo.long_text; "Bye."]
           (Demo.message_end "conv-42") (VStr "conv-42")).
  - vm_compute. reflexivity.
  - vm_compute. reflexivity.
  - repeat constructor.
  - split; reflexivity.
  - intros n. reflexivity.
Defined.

(** A fragment of 52 characters whose delivery fails, then one more
    character: two deliveries, of 52 and of 53 characters. *)
Lemma threshold_deliveries_are_long_witness :
  let w := Demo.world_of [] Demo.first_post_fails in
  exists ds acc',
    fst (consume Demo.dumps Demo.repr w Demo.token "ou_123"
           (map GYield [Demo.message Demo.long_text; Demo.message "!"]) "" Demo.st1)
    = Ok acc'
    /\ deliveries
         (trace (snd (consume Demo.dumps Demo.repr w Demo.token "ou_123"
                        (map GYield [Demo.message Demo.long_text; Demo.message "!"])
                        "" Demo.st1)))
       = deliveries (trace Demo.st1) ++ ds
    /\ Forall (fun d => 50 <= py_len (d_content d)) ds.
Proof.
  intros w.
  apply (threshold_deliveries_are_long Demo.dumps Demo.repr w Demo.token "ou_123"
           [Demo.message Demo.long_text; Demo.message "!"] [Demo.long_text; "!"]).
  repeat constructor.
Defined.

(** Two short fragments and no MessageEnd: nothing is delivered. *)
Lemma text_without_message_end_is_dropped_witness :
  let w :=
    Demo.world_of [Demo.line_message "Hello"; Demo.line_message ", world"]
      Demo.always_delivered in
  deliveries
    (trace (snd (process_ai_response Demo.loads Demo.dumps Demo.repr w
                   (VStr "hello") "ou_123" VNone Demo.st0)))
  = [].
Proof.
  intros w.
  refine (proj1 (proj2
            (text_without_message_end_is_dropped Demo.loads Demo.dumps Demo.repr w
               (VStr "hello") "ou_123" VNone Demo.token Demo.st0 Demo.st1
               ["Hello"; ", world"] _ _ _))).
  - vm_compute. reflexivity.
  - vm_compute. repeat constructor.
  - intros [|[|[|n]]]; vm_compute; lia.
Defined.

(** Two MessageEnd events with ["Hello"] accumulated. *)
Lemma message_end_keeps_accumulator_witness :
  let w := Demo.world_of [] Demo.always_delivered in
  deliveries
    (trace (snd (consume Demo.dumps Demo.repr w Demo.token "ou_123"
                   [GYield (Demo.message_end "conv-42");
                    GYield (Demo.message_end "conv-42")] "Hello" Demo.st1)))
  = [flush_of Demo.token "ou_123" "Hello"; flush_of Demo.token "ou_123" "Hello"].
Proof.
  intros w.
  refine (proj2
            (message_end_keeps_accumulator Demo.dumps Demo.repr w Demo.token
               "ou_123" "Hello" (Demo.message_end "conv-42") (VStr "conv-42")
               (Demo.message_end "conv-42") (VStr "conv-42") Demo.st1 _ _ _)).
  - split; reflexivity.
  - split; reflexivity.
  - discriminate.
Defined.

(** A [ping] event between a Message and a MessageEnd. *)
Lemma ignored_events_change_nothing_witness :
  let w := Demo.world_of [] Demo.always_delivered in
  consume Demo.dumps Demo.repr w Demo.token "ou_123"
    ([GYield (Demo.message "Hi ")]
     ++ GYield (VDict [("event", VStr "ping")])
     :: [GYield (Demo.message_end "conv-42")]) "" Demo.st1
  = consume Demo.dumps Demo.repr w Demo.token "ou_123"
      ([GYield (Demo.message "Hi ")] ++ [GYield (Demo.message_end "conv-42")])
      "" Demo.st1.
Proof.
  intros w.
  apply (ignored_events_change_nothing Demo.dumps Demo.repr w Demo.token "ou_123").
  exists (VStr "ping"). repeat split.
Defined.

(** An Error event without a message. *)
Lemma error_event_is_relayed_witness :
  let w := Demo.world_of [] Demo.always_delivered in
  deliveries
    (trace (snd (handle_event Demo.dumps Demo.repr w Demo.token "ou_123" "Hello"
                   (VDict [("event", VStr "error")]) Demo.st1)))
  = [flush_of Demo.token "ou_123" "处理您的请求时遇到错误: 未知错误"].
Proof.
  intros w.
  refine (proj1 (proj2
            (error_event_is_relayed Demo.dumps Demo.repr w Demo.token "ou_123"
               "Hello" (VDict [("event", VStr "error")]) (VStr "未知错误")
               Demo.st1 _))).
  split; reflexivity.
Defined.

(** The AI backend cannot be reached. *)
Lemma backend_failure_is_relayed_witness :
  let w :=
    mkWorld (Ok Demo.token_data) (SRaise Demo.connect_error)
      Demo.always_delivered Demo.now "0b9e8a54-3a55-4c0f-9d0a-6f3c1f2f7a11" in
  deliveries
    (trace (snd (process_ai_response Demo.loads Demo.dumps Demo.repr w
                   (VStr "hello") "ou_123" VNone Demo.st0)))
  = [flush_of Demo.token "ou_123"
       "处理您的请求时遇到错误: All connection attempts failed"].
Proof.
  intros w.
  refine (proj1 (proj2
            (backend_failure_is_relayed Demo.loads Demo.dumps Demo.repr w
               (VStr "hello") "ou_123" VNone Demo.token Demo.st0 Demo.st1
               Demo.connect_error _ _))).
  - vm_compute. reflexivity.
  - reflexivity.
Defined.

(** A short Message, then a JSON array, then a MessageEnd: only the system
    error message is delivered. *)
Lemma non_object_event_aborts_turn_witness :
  let w :=
    Demo.world_of
      [Demo.line_message "Hello"; "data: [1, 2]"; Demo.line_message_end "conv-42"]
      Demo.always_delivered in
  deliveries
    (trace (snd (process_ai_response Demo.loads Demo.dumps Demo.repr w
                   (VStr "hello") "ou_123" VNone Demo.st0)))
  = [flush_of Demo.token "ou_123" "系统错误: 'list' object has no attribute 'get'"].
Proof.
  intros w.
  refine (proj1 (proj2
            (non_object_event_aborts_turn Demo.loads Demo.dumps Demo.repr w
               (VStr "hello") "ou_123" VNone Demo.token Demo.st0 Demo.st1
               (snd (consume Demo.dumps Demo.repr w Demo.token "ou_123"
                       (firstn 2 (call_dify_api Demo.loads Demo.repr w
                                    (VStr "hello") "ou_123" VNone))
                       "" Demo.st1))
               (firstn 2 (call_dify_api Demo.loads Demo.repr w (VStr "hello")
                            "ou_123" VNone))
               [GYield (Demo.message_end "conv-42")]
               (VList [VInt 1; VInt 2]) "Hello" _ _ _ _)));
    try (vm_compute; reflexivity); exact I.
Defined.

(** A turn of ["ou_123"] leaves the conversation of ["ou_999"] alone. *)
Lemma turn_writes_only_its_entry_witness :
  let w :=
    Demo.world_of [Demo.line_message "Hello"; Demo.line_message_end "conv-42"]
      Demo.always_delivered in
  let st :=
    mkState {["ou_999" := mkConversation (VStr "conv-9") 1600000000%Z]} [] 0 0 in
  conversation_store
    (snd (process_ai_response Demo.loads Demo.dumps Demo.repr w (VStr "hello")
            "ou_123" VNone st)) !! "ou_999"
  = Some (mkConversation (VStr "conv-9") 1600000000%Z).
Proof.
  intros w st.
  rewrite (turn_writes_only_its_entry Demo.loads Demo.dumps Demo.repr w
             (VStr "hello") "ou_123" VNone st "ou_999").
  - reflexivity.
  - discriminate.
Defined.

(** A text message in the chat ["oc_555"], while the store holds a
    conversation for that chat. *)
Lemma text_message_creates_task_witness :
  let body := Demo.text_body "hi" "oc_555" "ou_123" in
  let st :=
    mkState {["oc_555" := mkConversation (VStr "conv-5") 1600000000%Z]} [] 0 0 in
  trace
    (snd (feishu_webhook
            (Demo.loads_with body (Demo.text_data "hi" "oc_555" "ou_123"))
            Demo.dumps (Ok body) st))
  = [StoreGet (VStr "oc_555");
     CreateTask (VStr "hi") (VStr "oc_555") (VStr "conv-5")].
Proof.
  intros body st.
  refine (proj2
            (text_message_creates_task
               (Demo.loads_with body (Demo.text_data "hi" "oc_555" "ou_123"))
               Demo.dumps body (Demo.text_data "hi" "oc_555" "ou_123")
               (VStr "hi") (VStr "oc_555") (VStr "ou_123") "oc_555" st
               _ _ _ _ _ _));
    try (vm_compute; reflexivity).
  - do 6 eexists. repeat split.
  - discriminate.
Defined.

(** A text message with empty chat and sender identifiers. *)
Lemma message_without_identity_is_dropped_witness :
  let body := Demo.text_body "hi" "" "" in
  snd (feishu_webhook (Demo.loads_with body (Demo.text_data "hi" "" ""))
         Demo.dumps (Ok body) Demo.st0)
  = Demo.st0.
Proof.
  intros body.
  rewrite (message_without_identity_is_dropped
             (Demo.loads_with body (Demo.text_data "hi" "" ""))
             Demo.dumps body (Demo.text_data "hi" "" "")
             (VStr "hi") (VStr "") (VStr "") Demo.st0);
    try (vm_compute; reflexivity).
  do 6 eexists. repeat split.
Defined.

(** An image message. *)
Lemma other_message_types_are_ignored_witness :
  snd (feishu_webhook Demo.loads Demo.dumps (Ok Demo.image_body) Demo.st0)
  = Demo.st0.
Proof.
  rewrite (other_message_types_are_ignored Demo.loads Demo.dumps Demo.image_body
             (VDict [("event", VDict [("message", VDict [("message_type", VStr "image")])])])
             (VDict [("message", VDict [("message_type", VStr "image")])])
             (VDict [("message_type", VStr "image")]) (VStr "image") Demo.st0);
    reflexivity.
Defined.

(** The turn of ["ou_123"] records ["conv-42"]; the next message of
    ["ou_123"] continues that conversation. *)
Lemma conversation_round_trip_witness :
  let w := Demo.world_of [] Demo.always_delivered in
  let body := Demo.text_body "and then?" "" "ou_123" in
  created_tasks
    (trace
       (snd (feishu_webhook
               (Demo.loads_with body (Demo.text_data "and then?" "" "ou_123"))
               Demo.dumps (Ok body)
               (snd (handle_event Demo.dumps Demo.repr w Demo.token "ou_123" ""
                       (Demo.message_end "conv-42") Demo.st1)))))
  = [(VStr "and then?", VStr "ou_123", VStr "conv-42")].
Proof.
  intros w body.
  apply (conversation_round_trip
           (Demo.loads_with body (Demo.text_data "and then?" "" "ou_123"))
           Demo.dumps Demo.repr w Demo.token "ou_123" ""
           (Demo.message_end "conv-42") (VStr "conv-42") body
           (Demo.text_data "and then?" "" "ou_123")
           (VStr "and then?") (VStr "") (VStr "ou_123") Demo.st1);
    try (vm_compute; reflexivity).
  - split; reflexivity.
  - do 6 eexists. repeat split.
  - discriminate.
Defined.
